(** * The parallel multi-agent execution engine of tusimreport

    A shallow embedding of [src/core/streamlit_parallel_engine.py] (class
    [StreamlitParallelEngine]) together with the run-state reset of
    [run_parallel_analysis] in [src/main.py] and [_reset_parallel_execution] in
    [src/utils/streamlit_helpers.py].

    Conventions of the embedding:
    - a Python [str] is the list of its Unicode code points ([list N]);
    - a Python function that can raise lives in a state-and-exception monad
      whose state survives an exception, as Python's heap does;
    - logging calls have no effect on the modelled state and are left out;
    - [datetime.now()] reads a clock counted in whole seconds. *)

From Stdlib Require Import ZArith NArith Ascii String List Lia Permutation.
From stdpp Require Import gmap strings list fin_maps.

Local Open Scope N_scope.

(* ===================================================================== *)
(** ** Python strings *)
(* ===================================================================== *)

Abbreviation pystr := (list N).

(** Decoding of a UTF-8 byte sequence into code points; it is only used to
    write the string literals of the source (Korean text, emoji) down. *)
Fixpoint utf8_decode (bs : list N) : pystr :=
  match bs with
  | [] => []
  | b0 :: r0 =>
    if b0 <? 128 then b0 :: utf8_decode r0
    else
      match r0 with
      | [] => [b0]
      | b1 :: r1 =>
        if b0 <? 224 then ((b0 - 192) * 64 + (b1 - 128)) :: utf8_decode r1
        else
          match r1 with
          | [] => [b0; b1]
          | b2 :: r2 =>
            if b0 <? 240
            then ((b0 - 224) * 4096 + (b1 - 128) * 64 + (b2 - 128)) :: utf8_decode r2
            else
              match r2 with
              | [] => [b0; b1; b2]
              | b3 :: r3 =>
                ((b0 - 240) * 262144 + (b1 - 128) * 4096 + (b2 - 128) * 64 + (b3 - 128))
                  :: utf8_decode r3
              end
          end
      end
  end.

Definition py (s : string) : pystr :=
  utf8_decode (List.map N_of_ascii (list_ascii_of_string s)).

(** ["\n"] *)
Definition LF : N := 10.

(** [str.isspace] on one code point: the characters [str.strip] and
    [str.split] treat as whitespace. *)
Definition is_space (c : N) : bool :=
  ((9 <=? c) && (c <=? 13)) || ((28 <=? c) && (c <=? 32))
  || (c =? 133) || (c =? 160) || (c =? 5760)
  || ((8192 <=? c) && (c <=? 8202))
  || (c =? 8232) || (c =? 8233) || (c =? 8239) || (c =? 8287) || (c =? 12288).

Fixpoint lstrip (s : pystr) : pystr :=
  match s with
  | [] => []
  | c :: r => if is_space c then lstrip r else s
  end.

Definition rstrip (s : pystr) : pystr := rev (lstrip (rev s)).

(** [s.strip()] *)
Definition strip (s : pystr) : pystr := rstrip (lstrip s).

(** [len(s.split())]: the number of maximal whitespace-free runs of [s];
    [in_token] tells whether the previous character belonged to a run. *)
Fixpoint count_tokens (in_token : bool) (s : pystr) : nat :=
  match s with
  | [] => 0%nat
  | c :: r =>
    if is_space c then count_tokens false r
    else ((if in_token then 0 else 1) + count_tokens true r)%nat
  end.

Definition split_len (s : pystr) : nat := count_tokens false s.

Fixpoint startswith (s p : pystr) {struct p} : bool :=
  match p, s with
  | [], _ => true
  | _ :: _, [] => false
  | a :: p', b :: s' => (a =? b) && startswith s' p'
  end.

(** [sub in s] on strings: [sub] occurs in [s] as a contiguous block. *)
Fixpoint contains (sub s : pystr) : bool :=
  startswith s sub ||
  match s with
  | [] => false
  | _ :: r => contains sub r
  end.

(** Number of positions of [s] at which [sub] starts. *)
Fixpoint occurrences (sub s : pystr) : nat :=
  ((if startswith s sub then 1 else 0) +
   match s with
   | [] => 0
   | _ :: r => occurrences sub r
   end)%nat.

(** Truth value of a string: [bool(s)]. *)
Definition truthy (s : pystr) : bool :=
  match s with [] => false | _ => true end.

(** [d.get(key, default)] *)
Definition dict_get {V} (d : gmap pystr V) (key : pystr) (default : V) : V :=
  match d !! key with
  | Some v => v
  | None => default
  end.

(* ===================================================================== *)
(** ** Exceptions and the state-and-exception monad *)
(* ===================================================================== *)

(** An exception object (every one here derives from [Exception]): its class
    name and [str(e)]. *)
Record Exc := mkExc { exc_type : pystr; exc_str : pystr }.

Definition ValueError (msg : pystr) : Exc := mkExc (py "ValueError") msg.
(** [str(KeyError(k))] is the repr of the key. *)
Definition KeyError (key : pystr) : Exc :=
  mkExc (py "KeyError") (py "'" ++ key ++ py "'").
Definition AttributeError (attr : pystr) : Exc := mkExc (py "AttributeError") attr.
(** [concurrent.futures.TimeoutError()] is raised without arguments. *)
Definition TimeoutError : Exc := mkExc (py "TimeoutError") [].

Inductive Res (A : Type) : Type :=
| Ok (a : A)
| Raise (e : Exc).
Arguments Ok {A} a.
Arguments Raise {A} e.

Definition M (S A : Type) : Type := S -> Res A * S.

Definition ret {S A} (a : A) : M S A := fun s => (Ok a, s).

Definition bind {S A B} (m : M S A) (k : A -> M S B) : M S B :=
  fun s =>
    match m s with
    | (Ok a, s') => k a s'
    | (Raise e, s') => (Raise e, s')
    end.

Definition raise {S A} (e : Exc) : M S A := fun s => (Raise e, s).

(** [try: m  except Exception as e: h e] *)
Definition try_except {S A} (m : M S A) (h : Exc -> M S A) : M S A :=
  fun s =>
    match m s with
    | (Ok a, s') => (Ok a, s')
    | (Raise e, s') => h e s'
    end.

Definition get {S} : M S S := fun s => (Ok s, s).
Definition modify {S} (f : S -> S) : M S unit := fun s => (Ok tt, f s).

Declare Scope py_scope.
Delimit Scope py_scope with py.
Notation "'let*' x ':=' c1 'in' c2" := (bind c1 (fun x => c2))
  (at level 10, x name, c1 at level 100, c2 at level 200) : py_scope.
Notation "c1 ';;;' c2" := (bind c1 (fun _ => c2))
  (at level 100, c2 at level 200, right associativity) : py_scope.
Local Open Scope py_scope.

(** [for x in xs: acc = body x acc], the loop variables that survive an
    iteration being threaded through [acc]. *)
Fixpoint for_each {S A L} (xs : list A) (body : A -> L -> M S L) (acc : L) : M S L :=
  match xs with
  | [] => ret acc
  | x :: rest => let* acc' := body x acc in for_each rest body acc'
  end.

(* ===================================================================== *)
(** ** Agents *)
(* ===================================================================== *)

(** The last element of [result['messages']]: an object with a [content]
    attribute (taken to be a [str]), or anything else, of which the code takes
    [str(last_message)]. *)
Inductive Message :=
| WithContent (content : pystr)
| Plain (str_of : pystr).

(** What [agent.invoke] returns: a dict that may or may not have the key
    ['messages']. *)
Record InvokeResult := { messages : option (list Message) }.

Inductive InvokeOutcome :=
| Returns (result : InvokeResult)
| Raises (e : Exc).

(** An agent handle: [invoke] returns or raises after [latency] seconds. *)
Record AgentHandle := {
  latency : nat;
  invoke : pystr -> InvokeOutcome
}.

(** A value of the dict [self.agents]: a usable handle, or an object that is
    false in a boolean context (such as [None]). *)
Inductive AgentObj :=
| Falsy
| Handle (h : AgentHandle).

Record AgentConfig := { name : pystr; priority : nat }.

(** [self]: the attributes of a [StreamlitParallelEngine] the scheduler
    reads. [agent_config] keeps the insertion order of the dict. *)
Record Engine := {
  agents : gmap pystr AgentObj;
  agent_config : list (pystr * AgentConfig)
}.

(** [__init__]: the catalog is fixed, the handles come from
    [create_all_agents] (not part of this file's sources). *)
Definition StreamlitParallelEngine (cached_agents : gmap pystr AgentObj) : Engine :=
  {| agents := cached_agents;
     agent_config :=
       [ (py "context_expert", {| name := py "🌍 시장환경"; priority := 1 |});
         (py "sentiment_expert", {| name := py "📰 뉴스분석"; priority := 1 |});
         (py "financial_expert", {| name := py "💰 재무분석"; priority := 1 |});
         (py "advanced_technical_expert", {| name := py "📈 기술분석"; priority := 2 |});
         (py "institutional_trading_expert", {| name := py "🏢 수급분석"; priority := 2 |});
         (py "comparative_expert", {| name := py "⚖️ 상대평가"; priority := 3 |});
         (py "esg_expert", {| name := py "🌱 ESG분석"; priority := 2 |});
         (py "community_expert", {| name := py "💬 커뮤니티"; priority := 3 |}) ] |}.

(** [self.agent_config.keys()] *)
Definition config_keys (self : Engine) : list pystr := (agent_config self).*1.

Definition base_requests (stock_code company_name : pystr) : gmap pystr pystr :=
  let head := py "종목 " ++ stock_code ++ py " (" ++ company_name ++ py ")에 대한 " in
  list_to_map
    [ (py "context_expert", head ++ py "시장 환경 및 거시경제 분석을 수행해주세요.");
      (py "sentiment_expert", head ++ py "뉴스 및 시장 심리 분석을 수행해주세요.");
      (py "financial_expert", head ++ py "재무제표 및 기업 분석을 수행해주세요.");
      (py "advanced_technical_expert", head ++ py "고급 기술적 분석을 수행해주세요.");
      (py "institutional_trading_expert", head ++ py "기관 수급 분석을 수행해주세요.");
      (py "comparative_expert", head ++ py "동종업계 상대 평가를 수행해주세요.");
      (py "esg_expert", head ++ py "ESG 및 지속가능성 분석을 수행해주세요.");
      (py "community_expert", head ++ py "커뮤니티 여론 분석을 수행해주세요.") ].

Definition _create_agent_request (agent_name stock_code company_name : pystr) : pystr :=
  dict_get (base_requests stock_code company_name) agent_name
           (py "종목 " ++ stock_code ++ py "에 대한 분석을 수행해주세요.").

Definition completion_signals : gmap pystr pystr :=
  list_to_map
    [ (py "context_expert", py "MARKET_CONTEXT_ANALYSIS_COMPLETE");
      (py "sentiment_expert", py "SENTIMENT_ANALYSIS_COMPLETE");
      (py "financial_expert", py "FINANCIAL_ANALYSIS_COMPLETE");
      (py "advanced_technical_expert", py "ADVANCED_TECHNICAL_ANALYSIS_COMPLETE");
      (py "institutional_trading_expert", py "INSTITUTIONAL_TRADING_ANALYSIS_COMPLETE");
      (py "comparative_expert", py "COMPARATIVE_ANALYSIS_COMPLETE");
      (py "esg_expert", py "ESG_ANALYSIS_COMPLETE");
      (py "community_expert", py "COMMUNITY_ANALYSIS_COMPLETE") ].

Definition _get_completion_signal (agent_name : pystr) : pystr :=
  dict_get completion_signals agent_name [].

(* ===================================================================== *)
(** ** Task executor *)
(* ===================================================================== *)

(** The dict returned by a successful task; [result_status] is always
    ['success'], [execution_time] is the clock reading that the source renders
    with [isoformat()]. *)
Record TaskResult := {
  result_agent_name : pystr;
  result_content : pystr;
  result_token_count : nat;
  result_execution_time : nat;
  result_status : pystr
}.

(** [agent.invoke({"messages": [{"role": "user", "content": request}]})] on a
    worker thread whose clock is the monad's state. *)
Definition agent_invoke (h : AgentHandle) (request : pystr) : M nat InvokeResult :=
  fun t =>
    match invoke h request with
    | Returns result => (Ok result, (t + latency h)%nat)
    | Raises e => (Raise e, (t + latency h)%nat)
    end.

(** The completion-marker step of the executor (source lines 209-212). *)
Definition append_completion_signal (agent_name content : pystr) : pystr :=
  let completion_signal := _get_completion_signal agent_name in
  if truthy completion_signal && negb (contains completion_signal content)
  then strip content ++ [LF; LF] ++ completion_signal
  else content.

Definition message_content (last_message : Message) : pystr :=
  match last_message with
  | WithContent content => content
  | Plain str_of => str_of
  end.

Definition _execute_single_agent_with_context
    (self : Engine) (agent_name stock_code company_name : pystr) : M nat TaskResult :=
  try_except
    (match agents self !! agent_name with
     | Some (Handle agent) =>
       let analysis_request := _create_agent_request agent_name stock_code company_name in
       let* result := agent_invoke agent analysis_request in
       match messages result with
       | Some (m :: ms) =>
         let last_message := List.last (m :: ms) m in
         let content := message_content last_message in
         let content := append_completion_signal agent_name content in
         let* now := get in
         ret {| result_agent_name := agent_name;
                result_content := content;
                result_token_count := split_len content;
                result_execution_time := now;
                result_status := py "success" |}
       | _ => raise (ValueError (py "에이전트 응답이 비어있음: " ++ agent_name))
       end
     | _ => raise (ValueError (py "에이전트를 찾을 수 없음: " ++ agent_name))
     end)
    (fun e => raise e).

(* ===================================================================== *)
(** ** Session state, clock and worker pool *)
(* ===================================================================== *)

(** The values of [progress['status']]: ['waiting'], ['starting'],
    ['running'], ['completed'], ['error']. *)
Inductive Status := Waiting | Starting | Running | Completed | Error.

#[global] Instance Status_eq_dec : EqDecision Status.
Proof. solve_decision. Defined.

(** One value of [st.session_state.parallel_progress]. *)
Record Progress := {
  status : Status;
  progress : nat;
  start_time : option nat;
  end_time : option nat;
  error : option pystr
}.

(** The keys of [st.session_state] the engine and its caller use; [None] is
    an absent key. *)
Record SessionState := {
  parallel_results : option (gmap pystr TaskResult);
  parallel_progress : option (gmap pystr Progress);
  parallel_errors : option (gmap pystr pystr);
  parallel_execution_started : option bool;
  parallel_execution_completed : option bool;
  current_analysis_type : option pystr
}.

(** The process: Streamlit's session state, the wall clock, and for every
    worker thread of the executor the time at which it is idle again. *)
Record World := {
  session_state : SessionState;
  clock : nat;
  pool : list nat
}.

Definition with_results (v : option (gmap pystr TaskResult)) (s : SessionState) :=
  {| parallel_results := v;
     parallel_progress := parallel_progress s;
     parallel_errors := parallel_errors s;
     parallel_execution_started := parallel_execution_started s;
     parallel_execution_completed := parallel_execution_completed s;
     current_analysis_type := current_analysis_type s |}.

Definition with_progress (v : option (gmap pystr Progress)) (s : SessionState) :=
  {| parallel_results := parallel_results s;
     parallel_progress := v;
     parallel_errors := parallel_errors s;
     parallel_execution_started := parallel_execution_started s;
     parallel_execution_completed := parallel_execution_completed s;
     current_analysis_type := current_analysis_type s |}.

Definition with_errors (v : option (gmap pystr pystr)) (s : SessionState) :=
  {| parallel_results := parallel_results s;
     parallel_progress := parallel_progress s;
     parallel_errors := v;
     parallel_execution_started := parallel_execution_started s;
     parallel_execution_completed := parallel_execution_completed s;
     current_analysis_type := current_analysis_type s |}.

Definition with_started (v : option bool) (s : SessionState) :=
  {| parallel_results := parallel_results s;
     parallel_progress := parallel_progress s;
     parallel_errors := parallel_errors s;
     parallel_execution_started := v;
     parallel_execution_completed := parallel_execution_completed s;
     current_analysis_type := current_analysis_type s |}.

Definition with_completed (v : option bool) (s : SessionState) :=
  {| parallel_results := parallel_results s;
     parallel_progress := parallel_progress s;
     parallel_errors := parallel_errors s;
     parallel_execution_started := parallel_execution_started s;
     parallel_execution_completed := v;
     current_analysis_type := current_analysis_type s |}.

Definition with_analysis_type (v : option pystr) (s : SessionState) :=
  {| parallel_results := parallel_results s;
     parallel_progress := parallel_progress s;
     parallel_errors := parallel_errors s;
     parallel_execution_started := parallel_execution_started s;
     parallel_execution_completed := parallel_execution_completed s;
     current_analysis_type := v |}.

Definition on_session (f : SessionState -> SessionState) (w : World) : World :=
  {| session_state := f (session_state w); clock := clock w; pool := pool w |}.

Definition with_clock (t : nat) (w : World) : World :=
  {| session_state := session_state w; clock := t; pool := pool w |}.

Definition with_pool (p : list nat) (w : World) : World :=
  {| session_state := session_state w; clock := clock w; pool := p |}.

(** [datetime.now()] *)
Definition datetime_now : M World nat := fun w => (Ok (clock w), w).

(** Reading [st.session_state.<key>]: an absent key raises [AttributeError]
    (Streamlit's message text is stood for by the key). *)
Definition read_attr {A} (key : string) (field : SessionState -> option A) : M World A :=
  fun w =>
    match field (session_state w) with
    | Some v => (Ok v, w)
    | None => (Raise (AttributeError (py key)), w)
    end.

(** [st.session_state.parallel_progress[agent_name] = value] *)
Definition progress_setitem (agent_name : pystr) (value : Progress) : M World unit :=
  let* d := read_attr "parallel_progress" parallel_progress in
  modify (on_session (with_progress (Some (<[agent_name := value]> d)))).

(** An in-place change of the dict [st.session_state.parallel_progress[agent_name]];
    a missing [agent_name] raises [KeyError]. *)
Definition progress_update (agent_name : pystr) (f : Progress -> Progress) : M World unit :=
  let* d := read_attr "parallel_progress" parallel_progress in
  match d !! agent_name with
  | Some p => modify (on_session (with_progress (Some (<[agent_name := f p]> d))))
  | None => raise (KeyError agent_name)
  end.

(** [st.session_state.parallel_results[agent_name] = result] *)
Definition results_setitem (agent_name : pystr) (result : TaskResult) : M World unit :=
  let* d := read_attr "parallel_results" parallel_results in
  modify (on_session (with_results (Some (<[agent_name := result]> d)))).

(** [st.session_state.parallel_errors[agent_name] = error_msg] *)
Definition errors_setitem (agent_name : pystr) (error_msg : pystr) : M World unit :=
  let* d := read_attr "parallel_errors" parallel_errors in
  modify (on_session (with_errors (Some (<[agent_name := error_msg]> d)))).

(* ===================================================================== *)
(** ** concurrent.futures, as far as the scheduler uses it *)
(* ===================================================================== *)

(** A submitted future: the time at which its task ends on its worker
    thread, and what the task returned or raised. *)
Record Future := {
  done_at : nat;
  outcome : Res TaskResult
}.

(** [ThreadPoolExecutor(max_workers=n)]: [ValueError] unless [n > 0]; every
    worker is idle from now on. *)
Definition ThreadPoolExecutor (max_workers : nat) : M World unit :=
  match max_workers with
  | O => raise (ValueError (py "max_workers must be greater than 0"))
  | _ => modify (fun w => with_pool (replicate max_workers (clock w)) w)
  end.

(** Position of the worker that is idle first (the leftmost of them). *)
Fixpoint first_idle (p : list nat) : nat :=
  match p with
  | [] => O
  | t :: rest =>
    match rest with
    | [] => O
    | _ => if (t <=? rest !!! first_idle rest)%nat then O else S (first_idle rest)
    end
  end.

(** [executor.submit(task)]: the queue is first-in first-out, so the task
    starts when the first worker is idle and ends [task]'s running time
    later. Submitting itself takes no time. *)
Definition executor_submit (task : M nat TaskResult) : M World Future :=
  fun w =>
    let i := first_idle (pool w) in
    let started := Nat.max (clock w) (pool w !!! i) in
    let '(r, finished) := task started in
    (Ok {| done_at := finished; outcome := r |}, with_pool (<[i := finished]> (pool w)) w).

(** Leaving the [with] block: [shutdown(wait=True)] returns when every
    worker is idle. *)
Definition executor_shutdown : M World unit :=
  modify (fun w => with_clock (Nat.max (clock w) (list_max (pool w))) w).

(** [with ThreadPoolExecutor(max_workers=n) as executor: body] *)
Definition with_ThreadPoolExecutor {A} (max_workers : nat) (body : M World A) : M World A :=
  ThreadPoolExecutor max_workers ;;;
  fun w =>
    let '(r, w') := body w in
    (r, snd (executor_shutdown w')).

Fixpoint insert_by_done_at (x : Future * pystr) (l : list (Future * pystr))
  : list (Future * pystr) :=
  match l with
  | [] => [x]
  | y :: rest =>
    if (done_at y.1 <=? done_at x.1)%nat then y :: insert_by_done_at x rest
    else x :: l
  end.

(** The order in which [as_completed(future_to_agent)] yields the futures:
    by completion time, futures that end together in submission order. Each
    future comes with [future_to_agent[future]]. *)
Definition as_completed (future_to_agent : list (Future * pystr)) : list (Future * pystr) :=
  fold_left (fun acc x => insert_by_done_at x acc) future_to_agent [].

(** The iterator of [as_completed] blocks until the future it yields is done. *)
Definition wait_until_done (future : Future) : M World unit :=
  modify (fun w => with_clock (Nat.max (clock w) (done_at future)) w).

(** [future.result(timeout=t)]: at once if the future is done, after waiting
    if it is done within [t] seconds, and [TimeoutError] otherwise. *)
Definition future_result (future : Future) (timeout : nat) : M World TaskResult :=
  fun w =>
    if (done_at future <=? clock w)%nat then (outcome future, w)
    else if (done_at future <=? clock w + timeout)%nat
         then (outcome future, with_clock (done_at future) w)
         else (Raise TimeoutError, with_clock (clock w + timeout)%nat w).

(* ===================================================================== *)
(** ** The parallel scheduler *)
(* ===================================================================== *)

Definition init_key {A} (field : SessionState -> option A)
    (setter : option A -> SessionState -> SessionState) (v : A) : M World unit :=
  modify (on_session (fun s =>
    match field s with
    | Some _ => s
    | None => setter (Some v) s
    end)).

Definition initialize_session_state : M World unit :=
  init_key parallel_results with_results ∅ ;;;
  init_key parallel_progress with_progress ∅ ;;;
  init_key parallel_errors with_errors ∅ ;;;
  init_key parallel_execution_started with_started false ;;;
  init_key parallel_execution_completed with_completed false.

Definition waiting_progress : Progress :=
  {| status := Waiting; progress := 0; start_time := None; end_time := None; error := None |}.

Definition set_status (v : Status) (p : Progress) : Progress :=
  {| status := v; progress := progress p; start_time := start_time p;
     end_time := end_time p; error := error p |}.

Definition set_start_time (t : nat) (p : Progress) : Progress :=
  {| status := status p; progress := progress p; start_time := Some t;
     end_time := end_time p; error := error p |}.

(** [.update({'status': 'completed', 'progress': 100, 'end_time': t})] *)
Definition update_completed (t : nat) (p : Progress) : Progress :=
  {| status := Completed; progress := 100; start_time := start_time p;
     end_time := Some t; error := error p |}.

(** [.update({'status': 'error', 'progress': 0, 'end_time': t, 'error': msg})] *)
Definition update_error (t : nat) (error_msg : pystr) (p : Progress) : Progress :=
  {| status := Error; progress := 0; start_time := start_time p;
     end_time := Some t; error := Some error_msg |}.

(** [len([... for agent, progress in d.items() if progress['status'] == 'completed'])] *)
Definition count_completed (d : gmap pystr Progress) : nat :=
  length (filter (fun item => status item.2 = Completed) (map_to_list d)).

(** Source lines 100-118: the submission loop; the loop variable is
    [future_to_agent]. *)
Definition submit_agents (self : Engine) (stock_code company_name : pystr)
  : M World (list (Future * pystr)) :=
  for_each (config_keys self)
    (fun agent_name future_to_agent =>
       match agents self !! agent_name with
       | Some _ =>
         progress_update agent_name (set_status Starting) ;;;
         let* now := datetime_now in
         progress_update agent_name (set_start_time now) ;;;
         let* future :=
           executor_submit
             (_execute_single_agent_with_context self agent_name stock_code company_name) in
         ret (future_to_agent ++ [(future, agent_name)])
       | None => ret future_to_agent
       end)
    [].

(** Source lines 126-160: one iteration of the collection loop. *)
Definition collect_one (item : Future * pystr) (_ : unit) : M World unit :=
  let '(future, agent_name) := item in
  wait_until_done future ;;;
  try_except
    (let* result := future_result future 300 in
     results_setitem agent_name result ;;;
     let* now := datetime_now in
     progress_update agent_name (update_completed now))
    (fun e =>
       let error_msg := exc_str e in
       errors_setitem agent_name error_msg ;;;
       let* now := datetime_now in
       progress_update agent_name (update_error now error_msg)).

(** The body of the outer [try] of [execute_agents_parallel]. *)
Definition execute_agents_parallel_try (self : Engine) (stock_code company_name : pystr)
  : M World bool :=
  initialize_session_state ;;;
  for_each (config_keys self)
    (fun agent_name _ => progress_setitem agent_name waiting_progress) tt ;;;
  modify (on_session (with_started (Some true))) ;;;
  let max_workers := Nat.min 2 (length (agent_config self)) in
  with_ThreadPoolExecutor max_workers
    (let* future_to_agent := submit_agents self stock_code company_name in
     for_each (as_completed future_to_agent) collect_one tt ;;;
     modify (on_session (with_completed (Some true))) ;;;
     let* d := read_attr "parallel_progress" parallel_progress in
     let successful_agents := count_completed d in
     ret (5 <=? successful_agents)%nat).

Definition execute_agents_parallel (self : Engine) (stock_code company_name : pystr)
  : M World bool :=
  try_except
    (execute_agents_parallel_try self stock_code company_name)
    (fun e =>
       modify (on_session (with_completed (Some true))) ;;;
       ret false).

(* ===================================================================== *)
(** ** The callers' handling of the run state *)
(* ===================================================================== *)

(** [run_parallel_analysis] in main.py, lines 421-426. *)
Definition run_parallel_analysis_reset : M World unit :=
  modify (on_session (with_started (Some true))) ;;;
  modify (on_session (with_completed (Some false))) ;;;
  modify (on_session (with_results (Some ∅))) ;;;
  modify (on_session (with_progress (Some ∅))) ;;;
  modify (on_session (with_analysis_type (Some (py "parallel")))).

(** [run_parallel_analysis] from the reset to the return of
    [execute_agents_parallel] (main.py, lines 421-433). *)
Definition run_parallel_analysis_execute (parallel_engine : Engine)
    (symbol company_name : pystr) : M World bool :=
  run_parallel_analysis_reset ;;;
  execute_agents_parallel parallel_engine symbol company_name.

(** [_reset_parallel_execution] in streamlit_helpers.py: every key of
    [keys_to_reset] is deleted. *)
Definition _reset_parallel_execution : M World unit :=
  modify (on_session (with_results None)) ;;;
  modify (on_session (with_progress None)) ;;;
  modify (on_session (with_errors None)) ;;;
  modify (on_session (with_started None)) ;;;
  modify (on_session (with_completed None)).

(** [get_analysis_results] *)
Definition get_analysis_results : M World (gmap pystr pystr) :=
  fun w =>
    match parallel_results (session_state w) with
    | None => (Ok ∅, w)
    | Some d => (Ok (result_content <$> d), w)
    end.

(* ===================================================================== *)
(** ** Vocabulary of the specifications *)
(* ===================================================================== *)

(** A world whose three maps exist. *)
Definition mk_world (res : gmap pystr TaskResult) (pm : gmap pystr Progress)
    (err : gmap pystr pystr) (st co : option bool) (ca : option pystr)
    (t : nat) (pl : list nat) : World :=
  {| session_state :=
       {| parallel_results := Some res;
          parallel_progress := Some pm;
          parallel_errors := Some err;
          parallel_execution_started := st;
          parallel_execution_completed := co;
          current_analysis_type := ca |};
     clock := t;
     pool := pl |}.

(** The maps a run starts from: an absent key counts as an empty dict. *)
Definition initial_results (w : World) : gmap pystr TaskResult :=
  default ∅ (parallel_results (session_state w)).
Definition initial_progress (w : World) : gmap pystr Progress :=
  default ∅ (parallel_progress (session_state w)).
Definition initial_errors (w : World) : gmap pystr pystr :=
  default ∅ (parallel_errors (session_state w)).

(** The progress map after the initialisation loop over [keys]. *)
Definition init_all (keys : list pystr) (pm : gmap pystr Progress) : gmap pystr Progress :=
  fold_left (fun m k => <[k := waiting_progress]> m) keys pm.

(** The progress entry of an agent submitted at time [t]. *)
Definition starting_progress (t : nat) : Progress :=
  set_start_time t (set_status Starting waiting_progress).

(** The agents [execute_agents_parallel] hands to the worker pool. *)
Definition submitted (self : Engine) (k : pystr) : Prop :=
  k ∈ config_keys self /\ is_Some (agents self !! k).

(** What the scheduler has written for [agent_name] once it has collected
    [future]: a result and status ['completed'], or an error text and status
    ['error']. [res0] and [err0] are the maps the run started from, [t0] is
    the time of submission. *)
Definition recorded (res0 : gmap pystr TaskResult) (err0 : gmap pystr pystr) (t0 : nat)
    (future : Future) (agent_name : pystr)
    (res : gmap pystr TaskResult) (pm : gmap pystr Progress) (err : gmap pystr pystr)
  : Prop :=
  match outcome future with
  | Ok r =>
    res !! agent_name = Some r /\ err !! agent_name = err0 !! agent_name /\
    exists te, pm !! agent_name = Some (update_completed te (starting_progress t0))
  | Raise e =>
    res !! agent_name = res0 !! agent_name /\ err !! agent_name = Some (exc_str e) /\
    exists te, pm !! agent_name
               = Some (update_error te (exc_str e) (starting_progress t0))
  end.

(** Invariant of the submission loop once the agents [done] have been
    visited: [pm1] is the progress map before the loop, [t] the time. *)
Definition submit_inv (self : Engine) (stock_code company_name : pystr)
    (res : gmap pystr TaskResult) (pm1 : gmap pystr Progress) (err : gmap pystr pystr)
    (st co : option bool) (ca : option pystr) (t : nat)
    (done : list pystr) (future_to_agent : list (Future * pystr)) (w : World) : Prop :=
  exists pm pl,
    w = mk_world res pm err st co ca t pl /\
    future_to_agent.*2 = filter (fun k => is_Some (agents self !! k)) done /\
    (forall fut k, (fut, k) ∈ future_to_agent ->
                   exists ts,
                     _execute_single_agent_with_context self k stock_code company_name ts
                     = (outcome fut, done_at fut)) /\
    (forall k, k ∈ done -> is_Some (agents self !! k) ->
               pm !! k = Some (starting_progress t)) /\
    (forall k, ~ (k ∈ done /\ is_Some (agents self !! k)) -> pm !! k = pm1 !! k).

(** Invariant of the collection loop once the futures [done] have been
    collected: [pm2] is the progress map after submission. *)
Definition collect_inv (res0 : gmap pystr TaskResult) (pm2 : gmap pystr Progress)
    (err0 : gmap pystr pystr) (st co : option bool) (ca : option pystr)
    (t0 : nat) (pl : list nat)
    (done : list (Future * pystr)) (_ : unit) (w : World) : Prop :=
  exists res pm err t,
    w = mk_world res pm err st co ca t pl /\
    (forall k, k ∉ done.*2 ->
               pm !! k = pm2 !! k /\ res !! k = res0 !! k /\ err !! k = err0 !! k) /\
    (forall fut k, (fut, k) ∈ done -> recorded res0 err0 t0 fut k res pm err).


(** The state in which [execute_agents_parallel] leaves the session when its
    [try] block ends normally with value [b], started in [w0]. *)
Definition run_post (self : Engine) (stock_code company_name : pystr) (w0 : World)
    (b : bool) (w : World) : Prop :=
  exists res pm err ca t pl,
    w = mk_world res pm err (Some true) (Some true) ca t pl /\
    b = (5 <=? count_completed pm)%nat /\
    (forall k, ~ submitted self k ->
               res !! k = initial_results w0 !! k /\
               err !! k = initial_errors w0 !! k /\
               pm !! k = init_all (config_keys self) (initial_progress w0) !! k) /\
    (forall k, submitted self k ->
               exists fut ts,
                 _execute_single_agent_with_context self k stock_code company_name ts
                 = (outcome fut, done_at fut) /\
                 recorded (initial_results w0) (initial_errors w0) (clock w0)
                          fut k res pm err).

(* ===================================================================== *)
(** ** Sample inputs *)

(** A handle that answers every request with one message of content [text]
    after [lat] seconds. *)
Definition says (lat : nat) (text : pystr) : AgentObj :=
  Handle {| latency := lat;
            invoke := fun _ => Returns {| messages := Some [WithContent text] |} |}.

(** A handle that answers with the request it was given. *)
Definition echoes (lat : nat) : AgentObj :=
  Handle {| latency := lat;
            invoke := fun request =>
                        Returns {| messages := Some [WithContent request] |} |}.

(** Every catalog agent is served by the handle [a]. *)
Definition everyone (a : AgentObj) : gmap pystr AgentObj :=
  list_to_map ((fun k => (k, a)) <$> config_keys (StreamlitParallelEngine ∅)).

(** A session in which nothing has run yet. *)
Definition fresh_world : World :=
  {| session_state :=
       {| parallel_results := None; parallel_progress := None;
          parallel_errors := None; parallel_execution_started := None;
          parallel_execution_completed := None; current_analysis_type := None |};
     clock := 0; pool := [] |}.

(** A session left behind by a run in which [context_expert] failed. *)
Definition stale_world : World :=
  {| session_state :=
       {| parallel_results := Some ∅;
          parallel_progress :=
            Some {[ py "context_expert" :=
                      {| status := Error; progress := 0; start_time := Some 10%nat;
                         end_time := Some 20%nat; error := Some (py "rate limit") |} ]};
          parallel_errors := Some {[ py "context_expert" := py "rate limit" ]};
          parallel_execution_started := Some true;
          parallel_execution_completed := Some true;
          current_analysis_type := Some (py "parallel") |};
     clock := 100; pool := [] |}.

(** An engine whose catalog has been emptied. *)
Definition no_catalog : Engine := {| agents := ∅; agent_config := [] |}.

(** [st.session_state.<map>[agent_name]], when both exist. *)
Definition entry {V} (field : SessionState -> option (gmap pystr V))
    (agent_name : pystr) (w : World) : option V :=
  d ← field (session_state w); d !! agent_name.

(** The handles of the timeout scenario: [sentiment_expert] needs 301
    seconds and then answers, everybody else answers after one second. *)
Definition slow_agents : gmap pystr AgentObj :=
  <[py "sentiment_expert" := says 301 (py "시장 심리 보고서")]>
    (everyone (says 1 (py "보고서"))).

(** The value of a call that returned. *)
Definition returned {A} (r : Res A) : option A :=
  match r with
  | Ok a => Some a
  | Raise _ => None
  end.

(** The handles of the mixed scenario: [financial_expert] raises,
    [esg_expert] has no usable handle, [community_expert] is not cached. *)
Definition mixed_agents : gmap pystr AgentObj :=
  <[py "financial_expert" :=
      Handle {| latency := 5;
                invoke := fun _ => Raises (mkExc (py "RuntimeError") (py "rate limit")) |}]>
    (<[py "esg_expert" := Falsy]>
       (delete (py "community_expert") (everyone (says 2 (py "보고서"))))).


(* ===================================================================== *)
(** ** The other methods of the engine and the caller's branches *)
(* ===================================================================== *)

(** [_update_progress_thread_safe]: the body is [pass]. *)
Definition _update_progress_thread_safe (agent_name status_text : pystr) (percent : nat)
  : M nat unit :=
  ret tt.

(** [_execute_single_agent_thread_safe] (source lines 230-280). *)
Definition _execute_single_agent_thread_safe
    (self : Engine) (agent_name stock_code company_name : pystr) : M nat TaskResult :=
  try_except
    (_update_progress_thread_safe agent_name (py "running") 50 ;;;
     match agents self !! agent_name with
     | Some (Handle agent) =>
       let analysis_request := _create_agent_request agent_name stock_code company_name in
       let* result := agent_invoke agent analysis_request in
       match messages result with
       | Some (m :: ms) =>
         let last_message := List.last (m :: ms) m in
         let content := message_content last_message in
         let content := append_completion_signal agent_name content in
         let* now := get in
         ret {| result_agent_name := agent_name;
                result_content := content;
                result_token_count := split_len content;
                result_execution_time := now;
                result_status := py "success" |}
       | _ => raise (ValueError (py "에이전트 응답이 비어있음: " ++ agent_name))
       end
     | _ => raise (ValueError (py "에이전트를 찾을 수 없음: " ++ agent_name))
     end)
    (fun e => raise e).

(** The value under ['progress'] in the dict of [get_execution_status]: the
    int [0], or the float [completed_agents / total_agents], kept as its
    numerator and denominator. *)
Inductive Fraction :=
| IntZero
| Quotient (numerator denominator : nat).

(** The dict returned by [get_execution_status]; a key the dict does not
    have is [None]. *)
Record ExecutionStatus := {
  es_status : pystr;
  es_progress : Fraction;
  es_completed_agents : option nat;
  es_total_agents : option nat;
  es_agents : gmap pystr Progress;
  es_results_available : option nat
}.

Definition get_execution_status (self : Engine) : M World ExecutionStatus :=
  fun w =>
    match parallel_progress (session_state w) with
    | None =>
      (Ok {| es_status := py "not_started"; es_progress := IntZero;
             es_completed_agents := None; es_total_agents := None;
             es_agents := ∅; es_results_available := None |}, w)
    | Some d =>
      let total_agents := length (agent_config self) in
      let completed_agents := count_completed d in
      let overall_progress :=
        if (0 <? total_agents)%nat then Quotient completed_agents total_agents
        else IntZero in
      (Ok {| es_status :=
               if default false (parallel_execution_completed (session_state w))
               then py "completed" else py "running";
             es_progress := overall_progress;
             es_completed_agents := Some completed_agents;
             es_total_agents := Some total_agents;
             es_agents := d;
             es_results_available :=
               Some (size (default ∅ (parallel_results (session_state w)))) |}, w)
    end.

(** Where [run_parallel_analysis] (main.py, lines 421-471) goes after the
    parallel attempt: it hands over to [run_analysis], or builds the report
    from [analysis_results], or shows "분석 실패: n/8 에이전트만 성공". *)
Inductive ParallelBranch :=
| FallbackToSequential
| ReportFromParallel (analysis_results : gmap pystr pystr)
| AnalysisFailed (n : nat).

(** [run_parallel_analysis] from the reset to that branch. Rendering, the
    news request before the reset and what each branch then calls
    ([run_analysis], [generate_comprehensive_report]) are not modelled. *)
Definition run_parallel_analysis (parallel_engine : Engine) (symbol company_name : pystr)
  : M World ParallelBranch :=
  run_parallel_analysis_reset ;;;
  let* parallel_ok :=
    try_except
      (let* success := execute_agents_parallel parallel_engine symbol company_name in
       if negb success then raise (mkExc (py "Exception") (py "병렬 처리 실패"))
       else
         let* analysis_results := get_analysis_results in
         if (size analysis_results <? 3)%nat
         then raise (mkExc (py "Exception") (py "병렬 처리 실패"))
         else ret true)
      (fun parallel_error => ret false) in
  if parallel_ok : bool then
    let* analysis_results := get_analysis_results in
    if (5 <=? size analysis_results)%nat then ret (ReportFromParallel analysis_results)
    else ret (AnalysisFailed (size analysis_results))
  else ret FallbackToSequential.

(** The agents whose progress entry has status ['completed']. *)
Definition completed_keys (d : gmap pystr Progress) : gset pystr :=
  dom (filter (fun item => status item.2 = Completed) d).

(** The catalog agents that have an entry in [self.agents], in catalog order. *)
Definition submitted_keys (self : Engine) : list pystr :=
  filter (fun k => is_Some (agents self !! k)) (config_keys self).

(** The result of the [esg_expert] task in the sample run. *)
Definition sample_esg_result : TaskResult :=
  {| result_agent_name := py "esg_expert";
     result_content := py "보고서" ++ [LF; LF] ++ py "ESG_ANALYSIS_COMPLETE";
     result_token_count := 2;
     result_execution_time := 7;
     result_status := py "success" |}.

(** The handle of [financial_expert] in [mixed_agents] and what it raises. *)
Definition rate_limit_error : Exc := mkExc (py "RuntimeError") (py "rate limit").
Definition rate_limited_handle : AgentHandle :=
  {| latency := 5; invoke := fun _ => Raises rate_limit_error |}.


(** Only four agents are cached. *)
Definition four_agents : gmap pystr AgentObj :=
  list_to_map
    [ (py "context_expert", says 1 (py "보고서"));
      (py "sentiment_expert", says 1 (py "보고서"));
      (py "financial_expert", says 1 (py "보고서"));
      (py "esg_expert", says 1 (py "보고서")) ].


(* ===================================================================== *)
(** ** The conversation manager (streamlit_conversation_manager.py) *)
(* ===================================================================== *)

(** One element of [st.session_state.chat_messages]: a dict with the keys
    ["role"], ["content"] and ["timestamp"]. *)
Record ChatMessage := {
  msg_role : pystr;
  msg_content : pystr;
  msg_timestamp : pystr
}.

(** The keys of [st.session_state] the conversation manager uses; [None] is
    an absent key. [agent_summaries] is a dict from agent id to text, kept
    in insertion order. *)
Record ConversationState := {
  chat_messages : option (list ChatMessage);
  final_report : option pystr;
  agent_summaries : option (list (pystr * pystr));
  conversation_context : option pystr;
  conversation_started : option bool
}.

(** Reading [st.session_state.<key>] in the conversation manager. *)
Definition read_key {A} (key : string) (field : ConversationState -> option A)
  : M ConversationState A :=
  fun s =>
    match field s with
    | Some v => (Ok v, s)
    | None => (Raise (AttributeError (py key)), s)
    end.

(** [l[start:]] for an [int] [start]: a negative [start] counts from the end. *)
Definition slice_from {A} (start : Z) (l : list A) : list A :=
  if (start <? 0)%Z then drop (length l - Z.to_nat (- start)) l
  else drop (Z.to_nat start) l.

(** [s[:n] + "..." if len(s) > n else s] *)
Definition ellipsis (n : nat) (s : pystr) : pystr :=
  if (n <? length s)%nat then take n s ++ py "..." else s.

(** [sep.join(l)] *)
Fixpoint join (sep : pystr) (l : list pystr) : pystr :=
  match l with
  | [] => []
  | x :: rest =>
    match rest with
    | [] => x
    | _ => x ++ sep ++ join sep rest
    end
  end.

(** [d[key]] / [key in d] on a dict kept as an association list. *)
Fixpoint alist_lookup {V} (d : list (pystr * V)) (key : pystr) : option V :=
  match d with
  | [] => None
  | (k, v) :: rest => if decide (k = key) then Some v else alist_lookup rest key
  end.

Definition history_line (msg : ChatMessage) : pystr :=
  let role := if decide (msg_role msg = py "user") then py "사용자" else py "AI" in
  let content := ellipsis 200 (msg_content msg) in
  role ++ py ": " ++ content.

Definition _get_recent_conversation_history (num_messages : Z)
  : M ConversationState pystr :=
  let* messages0 := read_key "chat_messages" chat_messages in
  match messages0 with
  | [] => ret (py "이전 대화 없음")
  | _ =>
    let* all_messages := read_key "chat_messages" chat_messages in
    let recent_messages := slice_from (- num_messages * 2)%Z all_messages in
    let history_text := history_line <$> recent_messages in
    ret (join [LF] history_text)
  end.

(** The dict [relevant_agents] of [_extract_relevant_agent_analysis]. *)
Definition relevant_agents : gmap pystr (list pystr) :=
  list_to_map
    [ (py "financial", [py "financial_expert"]);
      (py "technical", [py "advanced_technical_expert"]);
      (py "sentiment", [py "sentiment_expert"]);
      (py "esg", [py "esg_expert"]);
      (py "forecast", [py "financial_expert"; py "advanced_technical_expert"]);
      (py "comparison", [py "comparative_expert"]);
      (py "institutional", [py "institutional_trading_expert"]);
      (py "risk", [py "financial_expert"; py "advanced_technical_expert"]) ].

(** The text appended for [agent_name], if it has a summary. *)
Definition quoted_analysis (summaries : list (pystr * pystr)) (agent_name : pystr)
  : option pystr :=
  match alist_lookup summaries agent_name with
  | Some analysis =>
    Some (py "**" ++ agent_name ++ py "**: " ++ ellipsis 800 analysis)
  | None => None
  end.

Definition _extract_relevant_agent_analysis (question question_type : pystr)
    (summaries : list (pystr * pystr)) : pystr :=
  let target_agents := dict_get relevant_agents question_type summaries.*1 in
  let relevant_analyses := omap (quoted_analysis summaries) target_agents in
  join [LF; LF] (take 2 relevant_analyses).

(** [self.question_patterns], in the order of the dict. *)
Definition question_patterns : list (pystr * list pystr) :=
  [ (py "financial",
     [py "재무"; py "매출"; py "영업이익"; py "순이익"; py "부채"; py "자산";
      py "ROE"; py "ROA"; py "PER"; py "PBR"; py "배당"; py "현금흐름"]);
    (py "technical",
     [py "차트"; py "기술적"; py "RSI"; py "MACD"; py "이평선"; py "볼린저밴드";
      py "골든크로스"; py "저항선"; py "지지선"; py "캔들"]);
    (py "sentiment",
     [py "뉴스"; py "여론"; py "감정"; py "시장심리"; py "투자심리"; py "분위기";
      py "평가"; py "전망"]);
    (py "esg",
     [py "ESG"; py "환경"; py "지배구조"; py "사회적"; py "지속가능"; py "친환경";
      py "탄소"; py "윤리"]);
    (py "forecast",
     [py "전망"; py "목표가"; py "예상"; py "미래"; py "향후"; py "앞으로";
      py "내년"; py "장기"]);
    (py "comparison",
     [py "비교"; py "동종업계"; py "경쟁사"; py "업계"; py "섹터"; py "vs"; py "대비"]);
    (py "institutional",
     [py "기관"; py "수급"; py "매매"; py "외국인"; py "개인"; py "투자자"; py "거래량"]);
    (py "risk",
     [py "위험"; py "리스크"; py "변동성"; py "하락"; py "손실"; py "불확실성";
      py "위기"]) ].

(** The loop of [_classify_question_type] over a table of patterns: the
    first category one of whose keywords occurs in [question_lower]. *)
Fixpoint first_category (patterns : list (pystr * list pystr)) (question_lower : pystr)
  : pystr :=
  match patterns with
  | [] => py "general"
  | (category, keywords) :: rest =>
    if existsb (fun keyword => contains keyword question_lower) keywords
    then category
    else first_category rest question_lower
  end.

(** An ASCII capital letter. *)
Definition is_ascii_upper (c : N) : bool := (65 <=? c) && (c <=? 90).

(** The keywords of a table that have no ASCII capital letter. *)
Definition without_capitals (patterns : list (pystr * list pystr))
  : list (pystr * list pystr) :=
  (fun row => (row.1, List.filter (fun kw => negb (existsb is_ascii_upper kw)) row.2))
    <$> patterns.

(** [str.lower] on the ASCII letters; every other character is kept. It
    stands in for [str.lower] on text without cased characters outside ASCII
    (Hangul has none). *)
Definition ascii_lower (s : pystr) : pystr :=
  (fun c => if is_ascii_upper c then c + 32 else c) <$> s.

Section ConversationManager.
(** [str.lower], and [_extract_relevant_report_sections], which rests on the
    regular expressions of [re]: both are library behaviour the methods
    below are parametrised over. *)
Variable lower : pystr -> pystr.
Variable _extract_relevant_report_sections : pystr -> pystr -> pystr.

Definition _classify_question_type (question : pystr) : pystr :=
  let question_lower := lower question in
  first_category question_patterns question_lower.

Definition _get_relevant_context (question question_type : pystr)
  : M ConversationState pystr :=
  let* report := read_key "final_report" final_report in
  let* contexts :=
    (if truthy report then
       let* report := read_key "final_report" final_report in
       let report_sections := _extract_relevant_report_sections question report in
       if truthy report_sections
       then ret [py "## 종합 보고서 관련 내용:" ++ [LF] ++ report_sections]
       else ret []
     else ret []) in
  let* summaries := read_key "agent_summaries" agent_summaries in
  let* contexts :=
    (match summaries with
     | _ :: _ =>
       let* summaries := read_key "agent_summaries" agent_summaries in
       let agent_contexts :=
         _extract_relevant_agent_analysis question question_type summaries in
       if truthy agent_contexts
       then ret (contexts ++ [py "## 전문가 분석 관련 내용:" ++ [LF] ++ agent_contexts])
       else ret contexts
     | [] => ret contexts
     end) in
  let combined_context := join [LF; LF] contexts in
  ret (ellipsis 5000 combined_context).
End ConversationManager.

(** The dict returned by [get_conversation_stats]. *)
Record ConversationStats := {
  total_messages : nat;
  user_questions : nat;
  ai_responses : nat;
  stats_conversation_started : bool
}.

Definition count_role (role : pystr) (messages0 : list ChatMessage) : nat :=
  length (filter (fun msg => msg_role msg = role) messages0).

Definition get_conversation_stats : M ConversationState ConversationStats :=
  let* messages0 := read_key "chat_messages" chat_messages in
  match messages0 with
  | [] =>
    ret {| total_messages := 0; user_questions := 0; ai_responses := 0;
           stats_conversation_started := false |}
  | _ =>
    let* messages1 := read_key "chat_messages" chat_messages in
    let user_questions := count_role (py "user") messages1 in
    let* messages2 := read_key "chat_messages" chat_messages in
    let ai_responses := count_role (py "assistant") messages2 in
    let* messages3 := read_key "chat_messages" chat_messages in
    fun s =>
      (Ok {| total_messages := length messages3;
             user_questions := user_questions;
             ai_responses := ai_responses;
             stats_conversation_started := default false (conversation_started s) |}, s)
  end.

(** [is_conversation_available] *)
Definition is_conversation_available : M ConversationState bool :=
  fun s =>
    (Ok (truthy (default [] (final_report s))
         || match default [] (agent_summaries s) with [] => false | _ => true end), s).

(** A session with two messages of a conversation and two summaries. *)
Definition sample_conversation : ConversationState :=
  {| chat_messages :=
       Some [ {| msg_role := py "user"; msg_content := py "재무상태는 어떤가요?";
                 msg_timestamp := py "2025-01-01 10:00:00" |};
              {| msg_role := py "assistant"; msg_content := py "부채비율이 낮습니다.";
                 msg_timestamp := py "2025-01-01 10:00:05" |} ];
     final_report := Some (py "종합 보고서");
     agent_summaries :=
       Some [ (py "financial_expert", py "재무 분석");
              (py "esg_expert", py "ESG 분석") ];
     conversation_context := Some [];
     conversation_started := Some true |}.

(* ===================================================================== *)
(** * Properties *)
(* ===================================================================== *)

(** ** Strings and the completion marker *)

Lemma startswith_app (p s : pystr) : startswith (p ++ s) p = true.
Proof.
  induction p as [|a p IH]; simpl; [done|].
  by rewrite N.eqb_refl, IH.
Qed.

Lemma contains_suffix (sub pre : pystr) : contains sub (pre ++ sub) = true.
Proof.
  induction pre as [|c pre IH]; simpl.
  - destruct sub as [|a sub]; simpl; [done|].
    pose proof (startswith_app sub []) as H. rewrite app_nil_r in H.
    by rewrite N.eqb_refl, H.
  - rewrite IH. apply orb_true_r.
Qed.


Lemma truthy_true (s : pystr) : truthy s = true <-> s ≠ [].
Proof. destruct s; simpl; split; intros; congruence. Qed.

Lemma append_completion_signal_present (agent_name content : pystr) :
  contains (_get_completion_signal agent_name) content = true ->
  append_completion_signal agent_name content = content.
Proof.
  intros H. unfold append_completion_signal. rewrite H.
  by rewrite andb_false_r.
Qed.

(** After the step the output contains the marker (every string contains the
    empty one). *)
Lemma append_completion_signal_contains (agent_name content : pystr) :
  contains (_get_completion_signal agent_name)
           (append_completion_signal agent_name content) = true.
Proof.
  unfold append_completion_signal.
  destruct (truthy (_get_completion_signal agent_name)) eqn:Ht; cbn [andb].
  - destruct (contains (_get_completion_signal agent_name) content) eqn:Hc;
      cbn [negb]; [done|].
    rewrite app_assoc. apply contains_suffix.
  - destruct (_get_completion_signal agent_name); [|discriminate Ht].
    by destruct content.
Qed.

(** Running the marker step twice is running it once, whatever the text. *)
Lemma append_completion_signal_idempotent (agent_name content : pystr) :
  append_completion_signal agent_name (append_completion_signal agent_name content)
  = append_completion_signal agent_name content.
Proof.
  apply append_completion_signal_present, append_completion_signal_contains.
Qed.







(** ** Loops *)

(** Invariant rule for a [for] loop none of whose iterations raises: [I done
    acc s] holds when the elements [done] have been processed. *)
Lemma for_each_inv {S A L} (body : A -> L -> M S L) (xs : list A)
    (I : list A -> L -> S -> Prop) :
  (forall done x rest acc s,
      done ++ x :: rest = xs -> I done acc s ->
      exists acc' s', body x acc s = (Ok acc', s') /\ I (done ++ [x]) acc' s') ->
  forall acc s, I [] acc s ->
  exists acc' s', for_each xs body acc s = (Ok acc', s') /\ I xs acc' s'.
Proof.
  intros Hstep.
  assert (Hgen : forall rest done acc s,
             done ++ rest = xs -> I done acc s ->
             exists acc' s', for_each rest body acc s = (Ok acc', s') /\ I xs acc' s').
  { induction rest as [|x rest IH]; intros done acc s Heq HI.
    - rewrite app_nil_r in Heq. subst done. by exists acc, s.
    - destruct (Hstep done x rest acc s Heq HI) as (acc1 & s1 & Hb & HI1).
      destruct (IH (done ++ [x]) acc1 s1) as (acc2 & s2 & Hf & HI2).
      + by rewrite <- app_assoc.
      + exact HI1.
      + exists acc2, s2. split; [|exact HI2].
        simpl. unfold bind. by rewrite Hb. }
  intros acc s HI. by apply (Hgen xs []).
Qed.

(** ** Steps of the scheduler on a session whose three maps exist *)

Lemma initialize_session_state_eq (w : World) :
  initialize_session_state w =
  (Ok tt, mk_world (initial_results w) (initial_progress w) (initial_errors w)
            (Some (default false (parallel_execution_started (session_state w))))
            (Some (default false (parallel_execution_completed (session_state w))))
            (current_analysis_type (session_state w)) (clock w) (pool w)).
Proof.
  destruct w as [[r p e s c a] t pl].
  destruct r, p, e, s, c; reflexivity.
Qed.

Lemma progress_setitem_eq k v res pm err st co ca t pl :
  progress_setitem k v (mk_world res pm err st co ca t pl)
  = (Ok tt, mk_world res (<[k := v]> pm) err st co ca t pl).
Proof. reflexivity. Qed.

Lemma progress_update_eq k f p res pm err st co ca t pl :
  pm !! k = Some p ->
  progress_update k f (mk_world res pm err st co ca t pl)
  = (Ok tt, mk_world res (<[k := f p]> pm) err st co ca t pl).
Proof.
  intros H. unfold progress_update, bind, read_attr, mk_world. cbn.
  by rewrite H.
Qed.

Lemma results_setitem_eq k r res pm err st co ca t pl :
  results_setitem k r (mk_world res pm err st co ca t pl)
  = (Ok tt, mk_world (<[k := r]> res) pm err st co ca t pl).
Proof. reflexivity. Qed.

Lemma errors_setitem_eq k msg res pm err st co ca t pl :
  errors_setitem k msg (mk_world res pm err st co ca t pl)
  = (Ok tt, mk_world res pm (<[k := msg]> err) st co ca t pl).
Proof. reflexivity. Qed.

(** Once the iterator has yielded a future, [result(timeout=...)] returns or
    re-raises at once: the timeout cannot expire. *)
Lemma future_result_after_wait future timeout res pm err st co ca t pl :
  (done_at future <= t)%nat ->
  future_result future timeout (mk_world res pm err st co ca t pl)
  = (outcome future, mk_world res pm err st co ca t pl).
Proof.
  intros H. unfold future_result. cbn.
  by rewrite (proj2 (Nat.leb_le _ _) H).
Qed.

Lemma collect_one_eq future k p res pm err st co ca t pl :
  pm !! k = Some p ->
  collect_one (future, k) tt (mk_world res pm err st co ca t pl)
  = let t' := Nat.max t (done_at future) in
    match outcome future with
    | Ok r =>
      (Ok tt, mk_world (<[k := r]> res) (<[k := update_completed t' p]> pm) err
                st co ca t' pl)
    | Raise e =>
      (Ok tt, mk_world res (<[k := update_error t' (exc_str e) p]> pm)
                (<[k := exc_str e]> err) st co ca t' pl)
    end.
Proof.
  intros H. unfold collect_one.
  unfold bind at 1. unfold wait_until_done, modify.
  change (with_clock _ (mk_world res pm err st co ca t pl))
    with (mk_world res pm err st co ca (Nat.max t (done_at future)) pl).
  unfold try_except. unfold bind at 1.
  rewrite future_result_after_wait by lia.
  destruct (outcome future) as [r|e].
  - unfold bind at 1. rewrite results_setitem_eq.
    unfold bind at 1. unfold datetime_now. cbn [clock mk_world].
    rewrite progress_update_eq with (p := p) by exact H. reflexivity.
  - unfold bind at 1. rewrite errors_setitem_eq.
    unfold bind at 1. unfold datetime_now. cbn [clock mk_world].
    rewrite progress_update_eq with (p := p) by exact H. reflexivity.
Qed.

(** ** The initialisation loop *)

Lemma init_loop_eq keys res pm err st co ca t pl :
  for_each keys (fun agent_name _ => progress_setitem agent_name waiting_progress) tt
           (mk_world res pm err st co ca t pl)
  = (Ok tt, mk_world res (init_all keys pm) err st co ca t pl).
Proof.
  revert pm. induction keys as [|k keys IH]; intros pm; [reflexivity|].
  cbn [for_each]. unfold bind. rewrite progress_setitem_eq. apply IH.
Qed.

Lemma init_all_notin keys pm k :
  k ∉ keys -> init_all keys pm !! k = pm !! k.
Proof.
  revert pm. induction keys as [|a keys IH]; intros pm Hk; [reflexivity|].
  apply not_elem_of_cons in Hk as [Hne Hk].
  unfold init_all in *. cbn [fold_left]. rewrite IH by exact Hk.
  by apply lookup_insert_ne.
Qed.

Lemma init_all_in keys pm k :
  k ∈ keys -> init_all keys pm !! k = Some waiting_progress.
Proof.
  revert pm. induction keys as [|a keys IH]; intros pm Hk.
  - by apply elem_of_nil in Hk.
  - unfold init_all in *. cbn [fold_left].
    destruct (decide (k ∈ keys)) as [Hin|Hnin]; [by apply IH|].
    apply elem_of_cons in Hk as [->|Hk]; [|done].
    fold (init_all keys (<[a := waiting_progress]> pm)).
    rewrite init_all_notin by exact Hnin. apply lookup_insert_eq.
Qed.

(** ** The order of collection *)

Lemma insert_by_done_at_perm x l : insert_by_done_at x l ≡ₚ x :: l.
Proof.
  induction l as [|y l IH]; cbn [insert_by_done_at]; [done|].
  destruct (done_at y.1 <=? done_at x.1)%nat; [|done].
  rewrite IH. apply Permutation_swap.
Qed.

Lemma as_completed_perm future_to_agent :
  as_completed future_to_agent ≡ₚ future_to_agent.
Proof.
  unfold as_completed.
  assert (H : forall l acc,
             fold_left (fun acc x => insert_by_done_at x acc) l acc ≡ₚ acc ++ l).
  { induction l as [|x l IH]; intros acc; cbn [fold_left].
    - by rewrite app_nil_r.
    - rewrite IH, insert_by_done_at_perm.
      by rewrite (Permutation_middle acc l x). }
  by rewrite H.
Qed.

(** ** The submission loop *)

Lemma executor_submit_eq task res pm err st co ca t pl :
  exists pl',
    executor_submit task (mk_world res pm err st co ca t pl)
    = (Ok {| done_at := snd (task (Nat.max t (pl !!! first_idle pl)));
             outcome := fst (task (Nat.max t (pl !!! first_idle pl))) |},
       mk_world res pm err st co ca t pl').
Proof.
  unfold executor_submit. cbn [clock pool mk_world].
  destruct (task (Nat.max t (pl !!! first_idle pl))) as [r fin].
  eexists. reflexivity.
Qed.

Section Submit.
Context (self : Engine) (stock_code company_name : pystr).
Context (res : gmap pystr TaskResult) (pm1 : gmap pystr Progress)
        (err : gmap pystr pystr) (st co : option bool) (ca : option pystr)
        (t : nat).
Hypothesis keys_nodup : NoDup (config_keys self).
Hypothesis keys_waiting :
  forall k, k ∈ config_keys self -> pm1 !! k = Some waiting_progress.

Lemma submit_agents_spec pl :
  exists future_to_agent w,
    submit_agents self stock_code company_name (mk_world res pm1 err st co ca t pl)
    = (Ok future_to_agent, w) /\
    submit_inv self stock_code company_name res pm1 err st co ca t
             (config_keys self) future_to_agent w.
Proof.
  unfold submit_agents.
  apply for_each_inv
  with (I := submit_inv self stock_code company_name res pm1 err st co ca t).
  - intros done x rest f2a w Hsplit (pm & pl0 & -> & Hnames & Htasks & Hin & Hout).
    assert (Hx : x ∉ done).
    { rewrite <- Hsplit in keys_nodup.
      apply NoDup_app in keys_nodup as (_ & Hdis & _).
      intros Hd. apply (Hdis x Hd). by left. }
    assert (Hxk : x ∈ config_keys self).
    { rewrite <- Hsplit. apply elem_of_app. right. by left. }
    assert (Hpx : pm !! x = Some waiting_progress).
    { rewrite Hout by (intros [? _]; done). by apply keys_waiting. }
    destruct (agents self !! x) as [a|] eqn:Hag.
    + unfold bind at 1.
      rewrite progress_update_eq with (p := waiting_progress) by exact Hpx.
      unfold bind at 1. unfold datetime_now. cbn [clock mk_world].
      unfold bind at 1.
      rewrite progress_update_eq with (p := set_status Starting waiting_progress)
        by apply lookup_insert_eq.
      rewrite insert_insert_eq.
      unfold bind at 1.
      destruct (executor_submit_eq
                (_execute_single_agent_with_context self x stock_code company_name) res
                  (<[x := set_start_time t (set_status Starting waiting_progress)]> pm)
                  err st co ca t pl0) as (pl' & Hsub).
      rewrite Hsub.
      eexists _, _. split; [reflexivity|].
      exists (<[x := starting_progress t]> pm), pl'.
      split; [reflexivity|]. split; [|split; [|split]].
      * rewrite fmap_app, filter_app, Hnames. cbn [fmap list_fmap snd].
        rewrite filter_cons_True by (rewrite Hag; eauto).
        by rewrite filter_nil.
      * intros fut k [Hfk|Hfk]%elem_of_app.
        { by apply Htasks. }
        apply list_elem_of_singleton in Hfk. injection Hfk as -> ->.
        eexists. cbn [outcome done_at].
        by rewrite <- surjective_pairing.
      * intros k [Hk|Hk]%elem_of_app Hsome.
        { rewrite lookup_insert_ne by (intros ->; done). by apply Hin. }
        apply list_elem_of_singleton in Hk as ->. apply lookup_insert_eq.
      * intros k Hk.
        assert (k <> x).
        { intros ->. apply Hk. split; [|rewrite Hag; eauto].
          apply elem_of_app. right. by left. }
        rewrite lookup_insert_ne by done. apply Hout.
        intros [Hd Hs]. apply Hk. split; [|done]. apply elem_of_app. by left.
    + eexists _, _. split; [reflexivity|].
      exists pm, pl0. split; [reflexivity|]. split; [|split; [|split]].
      * rewrite filter_app, Hnames.
        rewrite filter_cons_False by (rewrite Hag; intros [? ?]; done).
        by rewrite filter_nil, app_nil_r.
      * exact Htasks.
      * intros k [Hk|Hk]%elem_of_app Hsome; [by apply Hin|].
        apply list_elem_of_singleton in Hk as ->.
        rewrite Hag in Hsome. by destruct Hsome.
      * intros k Hk. apply Hout. intros [Hd Hs]. apply Hk.
        split; [|done]. apply elem_of_app. by left.
  - exists pm1, pl. split; [reflexivity|]. split; [done|]. split; [|split].
    + intros fut k Hfk. by apply elem_of_nil in Hfk.
    + intros k Hk. by apply elem_of_nil in Hk.
    + done.
Qed.
End Submit.

(** ** The collection loop *)

Section Collect.
Context (res0 : gmap pystr TaskResult) (pm2 : gmap pystr Progress)
        (err0 : gmap pystr pystr) (st co : option bool) (ca : option pystr)
        (t0 : nat) (pl : list nat).
Context (order : list (Future * pystr)).
Hypothesis order_nodup : NoDup order.*2.
Hypothesis order_starting :
  forall fut k, (fut, k) ∈ order -> pm2 !! k = Some (starting_progress t0).

Lemma collect_spec t :
  exists w,
    for_each order collect_one tt (mk_world res0 pm2 err0 st co ca t pl) = (Ok tt, w) /\
    collect_inv res0 pm2 err0 st co ca t0 pl order tt w.
Proof.
  destruct (for_each_inv collect_one order
              (collect_inv res0 pm2 err0 st co ca t0 pl)) with
    (acc := tt) (s := mk_world res0 pm2 err0 st co ca t pl)
    as (acc' & w & Hrun & Hinv).
  - intros done [fut k] rest [] w Hsplit (res & pm & err & tc & -> & Hrest & Hdone).
    assert (Hk : k ∉ done.*2).
    { rewrite <- Hsplit, fmap_app in order_nodup.
      apply NoDup_app in order_nodup as (_ & Hdis & _).
      intros Hd. apply (Hdis k Hd). cbn. by left. }
    assert (Hin : (fut, k) ∈ order).
    { rewrite <- Hsplit. apply elem_of_app. right. by left. }
    destruct (Hrest k Hk) as (Hpk & Hrk & Hek).
    rewrite (order_starting _ _ Hin) in Hpk.
    rewrite (collect_one_eq fut k _ res pm err st co ca tc pl Hpk). cbv zeta.
    assert (Hother : forall k', k' ∈ done.*2 -> k' <> k) by (intros k' ? ->; done).
    destruct (outcome fut) as [r|e] eqn:Hout;
      (eexists tt, _; split; [reflexivity|]);
      eexists _, _, _, _; (split; [reflexivity|]); split.
    + intros k' Hk'. rewrite fmap_app in Hk'.
      apply not_elem_of_app in Hk' as [Hk1 Hk2].
      assert (k' <> k) by (intros ->; apply Hk2; cbn; by left).
      rewrite !lookup_insert_ne by done. by apply Hrest.
    + intros fut' k' [Hd|Hd]%elem_of_app.
      * assert (k' <> k).
        { apply Hother. apply list_elem_of_fmap. by exists (fut', k'). }
        specialize (Hdone _ _ Hd). unfold recorded in *.
        destruct (outcome fut'); rewrite !lookup_insert_ne by done; exact Hdone.
      * apply list_elem_of_singleton in Hd. injection Hd as -> ->.
        unfold recorded. rewrite Hout, !lookup_insert_eq.
        split; [done|]. split; [done|]. by eexists.
    + intros k' Hk'. rewrite fmap_app in Hk'.
      apply not_elem_of_app in Hk' as [Hk1 Hk2].
      assert (k' <> k) by (intros ->; apply Hk2; cbn; by left).
      rewrite !lookup_insert_ne by done. by apply Hrest.
    + intros fut' k' [Hd|Hd]%elem_of_app.
      * assert (k' <> k).
        { apply Hother. apply list_elem_of_fmap. by exists (fut', k'). }
        specialize (Hdone _ _ Hd). unfold recorded in *.
        destruct (outcome fut'); rewrite !lookup_insert_ne by done; exact Hdone.
      * apply list_elem_of_singleton in Hd. injection Hd as -> ->.
        unfold recorded. rewrite Hout, !lookup_insert_eq.
        split; [done|]. split; [done|]. by eexists.
  - exists res0, pm2, err0, t. split; [reflexivity|]. split; [done|].
    intros fut k Hfk. by apply elem_of_nil in Hfk.
  - destruct acc'. by exists w.
Qed.
End Collect.

(** ** The whole run *)

Lemma ThreadPoolExecutor_eq n res pm err st co ca t pl :
  n <> O ->
  ThreadPoolExecutor n (mk_world res pm err st co ca t pl)
  = (Ok tt, mk_world res pm err st co ca t (replicate n t)).
Proof. destruct n; [done|reflexivity]. Qed.

Lemma execute_agents_parallel_try_spec self stock_code company_name w0 :
  NoDup (config_keys self) ->
  agent_config self <> [] ->
  exists b w,
    execute_agents_parallel_try self stock_code company_name w0 = (Ok b, w) /\
    run_post self stock_code company_name w0 b w.
Proof.
  intros Hnd Hne.
  unfold execute_agents_parallel_try.
  unfold bind at 1. rewrite initialize_session_state_eq.
  unfold bind at 1. rewrite init_loop_eq.
  unfold bind at 1. unfold modify at 1.
  set (res0 := initial_results w0). set (err0 := initial_errors w0).
  set (pm1 := init_all (config_keys self) (initial_progress w0)).
  set (ca := current_analysis_type (session_state w0)).
  set (co := Some (default false (parallel_execution_completed (session_state w0)))).
  match goal with
  | |- context [on_session (with_started (Some true)) ?w] =>
    change (on_session (with_started (Some true)) w)
      with (mk_world res0 pm1 err0 (Some true) co ca (clock w0) (pool w0))
  end.
  unfold with_ThreadPoolExecutor. unfold bind at 1.
  rewrite ThreadPoolExecutor_eq
    by (destruct (agent_config self) as [|? [|? ?]]; [done|cbn; lia|cbn; lia]).
  set (pl0 := replicate _ _).
  destruct (submit_agents_spec self stock_code company_name res0 pm1 err0
              (Some true) co ca (clock w0) Hnd) with (pl := pl0)
    as (f2a & w2 & Hsub & pm2 & pl2 & -> & Hnames & Htasks & Hin & Hout).
  { intros k Hk. by apply init_all_in. }
  unfold bind at 1. rewrite Hsub.
  assert (Hperm := as_completed_perm f2a).
  assert (Hnd2 : NoDup (as_completed f2a).*2).
  { rewrite Hperm, Hnames. by apply NoDup_filter. }
  assert (Hmem : forall k, k ∈ f2a.*2 <-> submitted self k).
  { intros k. rewrite Hnames, list_elem_of_filter. unfold submitted. tauto. }
  destruct (collect_spec res0 pm2 err0 (Some true) co ca (clock w0) pl2
              (as_completed f2a) Hnd2) with (t := clock w0)
    as (w3 & Hcol & res & pm & err & t3 & -> & Hrest & Hdone).
  { intros fut k Hfk. rewrite Hperm in Hfk.
    assert (Hs : submitted self k).
    { apply Hmem, list_elem_of_fmap. by exists (fut, k). }
    destruct Hs. by apply Hin. }
  unfold bind at 1. rewrite Hcol.
  eexists _, _. split; [reflexivity|].
  exists res, pm, err, ca. eexists _, _. split; [reflexivity|].
  split; [reflexivity|]. split.
  - intros k Hk.
    assert (Hk' : k ∉ (as_completed f2a).*2) by (by rewrite Hperm, Hmem).
    destruct (Hrest k Hk') as (Hp & Hr & He).
    split; [done|]. split; [done|]. rewrite Hp. by apply Hout.
  - intros k Hk. apply Hmem, list_elem_of_fmap in Hk as ([fut k'] & Heq & Hfk).
    cbn in Heq. subst k'.
    destruct (Htasks fut k Hfk) as (ts & Hts).
    exists fut, ts. split; [exact Hts|].
    apply Hdone. by rewrite Hperm.
Qed.

Lemma execute_agents_parallel_try_empty self stock_code company_name w0 :
  agent_config self = [] ->
  execute_agents_parallel_try self stock_code company_name w0
  = (Raise (ValueError (py "max_workers must be greater than 0")),
     mk_world (initial_results w0) (initial_progress w0) (initial_errors w0)
       (Some true)
       (Some (default false (parallel_execution_completed (session_state w0))))
       (current_analysis_type (session_state w0)) (clock w0) (pool w0)).
Proof.
  intros Hcfg. unfold execute_agents_parallel_try, config_keys. rewrite Hcfg.
  unfold bind at 1. rewrite initialize_session_state_eq. reflexivity.
Qed.

(** [execute_agents_parallel] on a catalog without repeated keys: either the
    [try] block ends normally, or the catalog is empty, the pool cannot be
    created and the handler answers [False]. *)
Lemma execute_agents_parallel_spec self stock_code company_name w0 :
  NoDup (config_keys self) ->
  exists b w,
    execute_agents_parallel self stock_code company_name w0 = (Ok b, w) /\
    ((agent_config self <> [] /\
      execute_agents_parallel_try self stock_code company_name w0 = (Ok b, w) /\
      run_post self stock_code company_name w0 b w)
     \/
     (agent_config self = [] /\ b = false /\
      w = mk_world (initial_results w0) (initial_progress w0) (initial_errors w0)
            (Some true) (Some true)
            (current_analysis_type (session_state w0)) (clock w0) (pool w0))).
Proof.
  intros Hnd. destruct (agent_config self) as [|c cfg] eqn:Hcfg.
  - eexists _, _. split; [|right; split; [done|split; reflexivity]].
    unfold execute_agents_parallel, try_except.
    by rewrite execute_agents_parallel_try_empty.
  - destruct (execute_agents_parallel_try_spec self stock_code company_name w0 Hnd)
      as (b & w & Hrun & Hpost); [by rewrite Hcfg|].
    exists b, w. split; [|left; split; [done|split; done]].
    unfold execute_agents_parallel, try_except. by rewrite Hrun.
Qed.

(** Facts about the maps after a run, read off [run_post]. *)
Lemma recorded_progress res0 err0 t0 fut k res pm err :
  recorded res0 err0 t0 fut k res pm err ->
  exists p, pm !! k = Some p /\
    ((status p = Completed /\ progress p = 100%nat /\ is_Some (end_time p) /\
      error p = None /\
      exists r, outcome fut = Ok r /\ res !! k = Some r /\ err !! k = err0 !! k)
     \/
     (status p = Error /\ progress p = 0%nat /\ is_Some (end_time p) /\
      exists e, outcome fut = Raise e /\ error p = Some (exc_str e) /\
                err !! k = Some (exc_str e) /\ res !! k = res0 !! k)).
Proof.
  unfold recorded. destruct (outcome fut) as [r|e].
  - intros (Hr & He & te & Hp). eexists. split; [exact Hp|]. left.
    cbn. repeat split; eauto.
  - intros (Hr & He & te & Hp). eexists. split; [exact Hp|]. right.
    cbn. repeat split; eauto.
Qed.

(** ** The task executor *)

Lemma task_found_messages self k stock_code company_name h r m ms ts :
  agents self !! k = Some (Handle h) ->
  invoke h (_create_agent_request k stock_code company_name) = Returns r ->
  messages r = Some (m :: ms) ->
  _execute_single_agent_with_context self k stock_code company_name ts
  = (Ok {| result_agent_name := k;
           result_content :=
             append_completion_signal k (message_content (List.last (m :: ms) m));
           result_token_count :=
             split_len (append_completion_signal k
                          (message_content (List.last (m :: ms) m)));
           result_execution_time := (ts + latency h)%nat;
           result_status := py "success" |},
     (ts + latency h)%nat).
Proof.
  intros Hag Hinv Hmsg.
  unfold _execute_single_agent_with_context, try_except. rewrite Hag.
  unfold bind at 1. unfold agent_invoke. rewrite Hinv, Hmsg. reflexivity.
Qed.


Lemma task_raises self k stock_code company_name h e ts :
  agents self !! k = Some (Handle h) ->
  invoke h (_create_agent_request k stock_code company_name) = Raises e ->
  _execute_single_agent_with_context self k stock_code company_name ts
  = (Raise e, (ts + latency h)%nat).
Proof.
  intros Hag Hinv.
  unfold _execute_single_agent_with_context, try_except. rewrite Hag.
  unfold bind at 1. unfold agent_invoke. by rewrite Hinv.
Qed.

(** Whatever a task returns has gone through the marker step. *)
Lemma task_ok_content self k stock_code company_name ts tr t' :
  _execute_single_agent_with_context self k stock_code company_name ts = (Ok tr, t') ->
  exists content, result_content tr = append_completion_signal k content.
Proof.
  unfold _execute_single_agent_with_context, try_except.
  destruct (agents self !! k) as [[|h]|]; [discriminate| |discriminate].
  unfold bind at 1. unfold agent_invoke.
  destruct (invoke h _) as [r|e]; [|discriminate].
  destruct (messages r) as [[|m ms]|]; [discriminate| |discriminate].
  intros [= <- _]. by eexists.
Qed.

(** ** The fixed catalog *)

Lemma catalog_nodup cached_agents :
  NoDup (config_keys (StreamlitParallelEngine cached_agents)).
Proof. apply (bool_decide_unpack _). by vm_compute. Qed.


(** A catalog agent whose handle returns a non-empty list of messages is
    recorded as ['completed'], however long the call took: no waiting time
    turns an answer into an error. *)
Lemma returning_task_is_completed (cached_agents : gmap pystr AgentObj)
    (stock_code company_name : pystr) (w0 : World)
    (k : pystr) (h : AgentHandle) (r : InvokeResult) m ms :
  k ∈ config_keys (StreamlitParallelEngine cached_agents) ->
  cached_agents !! k = Some (Handle h) ->
  invoke h (_create_agent_request k stock_code company_name) = Returns r ->
  messages r = Some (m :: ms) ->
  exists b w pm p,
    execute_agents_parallel (StreamlitParallelEngine cached_agents)
                            stock_code company_name w0 = (Ok b, w) /\
    parallel_progress (session_state w) = Some pm /\
    pm !! k = Some p /\ status p = Completed /\ error p = None.
Proof.
  intros Hk Hag Hinv Hmsg.
  set (self := StreamlitParallelEngine cached_agents) in *.
  destruct (execute_agents_parallel_spec self stock_code company_name w0
              (catalog_nodup cached_agents))
    as (b & w & Hrun & [(_ & _ & Hpost) | (Hempty & _)]); [|discriminate Hempty].
  destruct Hpost as (res & pm & err & ca & t & pl & -> & _ & _ & Hsub).
  destruct (Hsub k) as (fut & ts & Htask & Hrec).
  { split; [exact Hk|]. change (agents self) with cached_agents. by rewrite Hag. }
  rewrite (task_found_messages self k stock_code company_name h r m ms ts
             Hag Hinv Hmsg) in Htask.
  injection Htask as Hout _.
  apply recorded_progress in Hrec as (p & Hp & Hcase).
  exists b, (mk_world res pm err (Some true) (Some true) ca t pl), pm, p.
  split; [exact Hrun|]. split; [reflexivity|]. split; [exact Hp|].
  destruct Hcase as [(Hs & _ & _ & He & _)|(_ & _ & _ & e & He & _)]; [done|].
  rewrite He in Hout. discriminate.
Qed.

(* ===================================================================== *)
(** * The claims *)
(* ===================================================================== *)

(** C1. On the engine with its catalog of eight agents, whatever handles are
    cached and whatever state the session is in, [execute_agents_parallel]
    returns a boolean, and that boolean is [True] exactly when at least five
    entries of the progress map have status ['completed'] at the end of the
    run. *)
Theorem C1_quorum_law (cached_agents : gmap pystr AgentObj)
    (stock_code company_name : pystr) (w0 : World) :
  exists b w pm,
    execute_agents_parallel (StreamlitParallelEngine cached_agents)
                            stock_code company_name w0 = (Ok b, w) /\
    parallel_progress (session_state w) = Some pm /\
    (b = true <-> (5 <= count_completed pm)%nat).
Proof.
  destruct (execute_agents_parallel_spec (StreamlitParallelEngine cached_agents)
              stock_code company_name w0 (catalog_nodup cached_agents))
    as (b & w & Hrun & [(_ & _ & Hpost) | (Hempty & _)]); [|discriminate Hempty].
  destruct Hpost as (res & pm & err & ca & t & pl & -> & -> & _).
  exists (5 <=? count_completed pm)%nat, (mk_world res pm err (Some true) (Some true) ca t pl), pm.
  split; [exact Hrun|]. split; [reflexivity|].
  apply Nat.leb_le.
Qed.


(** C8. After every run over a catalog of distinct agents, each entry of the
    progress map that belongs to a catalog agent (and each entry at all, when
    the key was not in the progress map before the run) satisfies: status
    ['completed'] implies an end time and an entry in the result map; status
    ['error'] implies an error message. *)
Theorem C8_progress_invariant (self : Engine) (stock_code company_name : pystr)
    (w0 : World) :
  NoDup (config_keys self) ->
  exists b w res pm,
    execute_agents_parallel self stock_code company_name w0 = (Ok b, w) /\
    parallel_results (session_state w) = Some res /\
    parallel_progress (session_state w) = Some pm /\
    (forall k p,
        pm !! k = Some p ->
        k ∈ config_keys self \/ initial_progress w0 !! k = None ->
        (status p = Completed -> is_Some (end_time p) /\ is_Some (res !! k)) /\
        (status p = Error -> is_Some (error p))).
Proof.
  intros Hnd.
  destruct (execute_agents_parallel_spec self stock_code company_name w0 Hnd)
    as (b & w & Hrun & [(_ & _ & Hpost) | (Hempty & _ & ->)]).
  - destruct Hpost as (res & pm & err & ca & t & pl & -> & _ & Hrest & Hsub).
    exists b, (mk_world res pm err (Some true) (Some true) ca t pl), res, pm.
    split; [exact Hrun|]. split; [reflexivity|]. split; [reflexivity|].
    intros k p Hp Hk.
    destruct (decide (k ∈ config_keys self)) as [Hin|Hnin].
    + destruct (agents self !! k) as [a|] eqn:Hag.
      * destruct (Hsub k) as (fut & ts & _ & Hrec); [split; [done|by rewrite Hag]|].
        apply recorded_progress in Hrec as (p' & Hp' & Hcase).
        rewrite Hp in Hp'. injection Hp' as <-.
        destruct Hcase as [(Hs & _ & Hend & _ & r & _ & Hr & _)
                          |(Hs & _ & _ & e & _ & He & _)].
        -- split; [intros _; split; [done|by rewrite Hr]|].
           rewrite Hs. discriminate.
        -- split; [rewrite Hs; discriminate|]. intros _. by rewrite He.
      * destruct (Hrest k) as (_ & _ & Hp'); [intros [_ Hs]; rewrite Hag in Hs; by destruct Hs|].
        rewrite Hp, init_all_in in Hp' by exact Hin. injection Hp' as ->.
        split; discriminate.
    + destruct Hk as [Hk|Hk]; [done|].
      destruct (Hrest k) as (_ & _ & Hp'); [by intros [? _]|].
      rewrite Hp, init_all_notin, Hk in Hp' by exact Hnin. discriminate.
  - eexists _, _, _, _. split; [exact Hrun|]. split; [reflexivity|].
    split; [reflexivity|].
    intros k p Hp [Hk|Hk].
    + unfold config_keys in Hk. rewrite Hempty in Hk. by apply elem_of_nil in Hk.
    + rewrite Hp in Hk. discriminate.
Qed.

(** C10. From a session whose result and error maps are absent or empty, on a
    catalog of distinct agents, once [execute_agents_parallel] has returned
    every submitted agent is in the result map exactly when its status is
    ['completed'], in the error map exactly when its status is ['error'], and
    in exactly one of the two maps. *)
Theorem C10_results_xor_errors (self : Engine) (stock_code company_name : pystr)
    (w0 : World) :
  NoDup (config_keys self) ->
  initial_results w0 = ∅ ->
  initial_errors w0 = ∅ ->
  exists b w res pm err,
    execute_agents_parallel self stock_code company_name w0 = (Ok b, w) /\
    parallel_results (session_state w) = Some res /\
    parallel_progress (session_state w) = Some pm /\
    parallel_errors (session_state w) = Some err /\
    (forall k, submitted self k ->
       exists p, pm !! k = Some p /\
         (is_Some (res !! k) <-> status p = Completed) /\
         (is_Some (err !! k) <-> status p = Error) /\
         (is_Some (res !! k) \/ is_Some (err !! k)) /\
         ~ (is_Some (res !! k) /\ is_Some (err !! k))).
Proof.
  intros Hnd Hres0 Herr0.
  destruct (execute_agents_parallel_spec self stock_code company_name w0 Hnd)
    as (b & w & Hrun & [(_ & _ & Hpost) | (Hempty & _ & ->)]).
  - destruct Hpost as (res & pm & err & ca & t & pl & -> & _ & _ & Hsub).
    exists b, (mk_world res pm err (Some true) (Some true) ca t pl), res, pm, err.
    split; [exact Hrun|]. do 3 (split; [reflexivity|]).
    intros k Hk. destruct (Hsub k Hk) as (fut & ts & _ & Hrec).
    apply recorded_progress in Hrec as (p & Hp & Hcase).
    exists p. split; [exact Hp|].
    rewrite Hres0, Herr0, lookup_empty in Hcase.
    destruct Hcase as [(Hs & _ & _ & _ & r & _ & Hr & He)
                      |(Hs & _ & _ & e & _ & _ & He & Hr)];
      rewrite Hs, Hr, He.
    + split; [split; eauto|]. split; [split; [intros [? ?]|]; discriminate|].
      split; [left; eauto|]. intros [_ [? ?]]. discriminate.
    + split; [split; [intros [? ?]|]; discriminate|]. split; [split; eauto|].
      split; [right; eauto|]. intros [[? ?] _]. discriminate.
  - eexists _, _, _, _, _. split; [exact Hrun|]. do 3 (split; [reflexivity|]).
    intros k [Hk _]. unfold config_keys in Hk. rewrite Hempty in Hk.
    by apply elem_of_nil in Hk.
Qed.





(** C4. The code does not do what the claim says. [sentiment_expert] takes
    301 seconds and then answers: the loop over [as_completed] only reaches
    its future once it is done, [future.result(timeout=300)] returns at once,
    and the task is recorded as ['completed'] with end time 301 and no error;
    [context_expert], done after one second, was collected at time 1. *)
Theorem C4_slow_task_is_completed :
  let run := execute_agents_parallel (StreamlitParallelEngine slow_agents)
                                     (py "005930") (py "삼성전자") fresh_world in
  fst run = Ok true /\
  entry parallel_progress (py "sentiment_expert") (snd run)
  = Some {| status := Completed; progress := 100; start_time := Some 0%nat;
            end_time := Some 301%nat; error := None |} /\
  entry parallel_errors (py "sentiment_expert") (snd run) = None /\
  end_time <$> entry parallel_progress (py "context_expert") (snd run)
  = Some (Some 1%nat).
Proof. by vm_compute. Qed.

(** C5. When the agent's completion marker is not empty and the text already
    contains it, the marker step returns the text unchanged: same text, same
    length, same number of occurrences of the marker. *)
Theorem C5_marker_step_keeps_marked_text (agent_name content : pystr) :
  _get_completion_signal agent_name <> [] ->
  contains (_get_completion_signal agent_name) content = true ->
  append_completion_signal agent_name content = content /\
  length (append_completion_signal agent_name content) = length content /\
  occurrences (_get_completion_signal agent_name)
              (append_completion_signal agent_name content)
  = occurrences (_get_completion_signal agent_name) content.
Proof.
  intros _ Hc.
  rewrite (append_completion_signal_present agent_name content Hc).
  by repeat split.
Qed.

Lemma C5_witness :
  _get_completion_signal (py "esg_expert") <> [] /\
  contains (_get_completion_signal (py "esg_expert"))
           (py "ESG 점검 결과 ESG_ANALYSIS_COMPLETE") = true /\
  (append_completion_signal (py "esg_expert") (py "ESG 점검 결과 ESG_ANALYSIS_COMPLETE")
   = py "ESG 점검 결과 ESG_ANALYSIS_COMPLETE" /\
   length (append_completion_signal (py "esg_expert")
                                    (py "ESG 점검 결과 ESG_ANALYSIS_COMPLETE"))
   = length (py "ESG 점검 결과 ESG_ANALYSIS_COMPLETE") /\
   occurrences (_get_completion_signal (py "esg_expert"))
               (append_completion_signal (py "esg_expert")
                                         (py "ESG 점검 결과 ESG_ANALYSIS_COMPLETE"))
   = occurrences (_get_completion_signal (py "esg_expert"))
                 (py "ESG 점검 결과 ESG_ANALYSIS_COMPLETE")).
Proof.
  split; [by vm_compute|]. split; [by vm_compute|].
  apply (C5_marker_step_keeps_marked_text (py "esg_expert")
           (py "ESG 점검 결과 ESG_ANALYSIS_COMPLETE")); by vm_compute.
Defined.

Lemma run_parallel_analysis_reset_eq (w : World) :
  run_parallel_analysis_reset w
  = (Ok tt,
     {| session_state :=
          {| parallel_results := Some ∅;
             parallel_progress := Some ∅;
             parallel_errors := parallel_errors (session_state w);
             parallel_execution_started := Some true;
             parallel_execution_completed := Some false;
             current_analysis_type := Some (py "parallel") |};
        clock := clock w;
        pool := pool w |}).
Proof. reflexivity. Qed.

(** C6. The code does not do what the claim says. The reset at the start of
    [run_parallel_analysis] replaces the result and progress maps and the two
    flags but leaves [parallel_errors] alone, and [initialize_session_state]
    keeps a map that exists. The error text a previous run stored for
    [context_expert] is still in the error map after a new run in which
    [context_expert] is ['completed']. ([_reset_parallel_execution] does
    delete [parallel_errors].) *)
Theorem C6_stale_error_survives_reset :
  let w := snd (run_parallel_analysis_execute
                  (StreamlitParallelEngine (everyone (says 1 (py "보고서"))))
                  (py "005930") (py "삼성전자") stale_world) in
  entry parallel_errors (py "context_expert") stale_world = Some (py "rate limit") /\
  status <$> entry parallel_progress (py "context_expert") w = Some Completed /\
  is_Some (entry parallel_results (py "context_expert") w) /\
  entry parallel_errors (py "context_expert") w = Some (py "rate limit") /\
  parallel_errors (session_state (snd (_reset_parallel_execution stale_world))) = None.
Proof.
  cbv zeta. split; [by vm_compute|]. split; [by vm_compute|].
  split; [|split; by vm_compute].
  apply (bool_decide_unpack _). by vm_compute.
Qed.

(** C9 (amended). For an agent id that is not a key of [base_requests],
    [_create_agent_request] does not fail: it returns the generic request
    "종목 <stock_code>에 대한 분석을 수행해주세요.". *)
Theorem C9_unknown_agent_gets_generic_request (agent_name stock_code company_name : pystr) :
  base_requests stock_code company_name !! agent_name = None ->
  _create_agent_request agent_name stock_code company_name
  = py "종목 " ++ stock_code ++ py "에 대한 분석을 수행해주세요.".
Proof.
  intros H. unfold _create_agent_request, dict_get. by rewrite H.
Qed.

Lemma C9_witness :
  base_requests (py "005930") (py "삼성전자") !! py "macro_expert" = None /\
  _create_agent_request (py "macro_expert") (py "005930") (py "삼성전자")
  = py "종목 " ++ py "005930" ++ py "에 대한 분석을 수행해주세요.".
Proof.
  split; [by vm_compute|].
  apply (C9_unknown_agent_gets_generic_request
           (py "macro_expert") (py "005930") (py "삼성전자")).
  by vm_compute.
Defined.

(** C9, as stated, fails: ["macro_expert"] is not in the registry, yet a
    request string is returned for it, and a task run for it with a handle
    that echoes its request ends normally with that string as content. *)
Lemma C9_unknown_agent_request_is_returned :
  base_requests (py "005930") (py "삼성전자") !! py "macro_expert" = None /\
  _create_agent_request (py "macro_expert") (py "005930") (py "삼성전자")
  = py "종목 005930에 대한 분석을 수행해주세요." /\
  result_content <$>
    returned (fst (_execute_single_agent_with_context
                     {| agents := {[ py "macro_expert" := echoes 1 ]};
                        agent_config := [] |}
                     (py "macro_expert") (py "005930") (py "삼성전자") 0%nat))
  = Some (py "종목 005930에 대한 분석을 수행해주세요.").
Proof. by vm_compute. Qed.



Lemma C8_witness :
  NoDup (config_keys (StreamlitParallelEngine mixed_agents)) /\
  exists b w res pm,
    execute_agents_parallel (StreamlitParallelEngine mixed_agents)
                            (py "005930") (py "삼성전자") stale_world = (Ok b, w) /\
    parallel_results (session_state w) = Some res /\
    parallel_progress (session_state w) = Some pm /\
    (forall k p,
        pm !! k = Some p ->
        k ∈ config_keys (StreamlitParallelEngine mixed_agents)
        \/ initial_progress stale_world !! k = None ->
        (status p = Completed -> is_Some (end_time p) /\ is_Some (res !! k)) /\
        (status p = Error -> is_Some (error p))).
Proof.
  split; [apply (bool_decide_unpack _); by vm_compute|].
  apply (C8_progress_invariant (StreamlitParallelEngine mixed_agents)
           (py "005930") (py "삼성전자") stale_world).
  apply (bool_decide_unpack _). by vm_compute.
Defined.

Lemma C10_witness :
  NoDup (config_keys (StreamlitParallelEngine mixed_agents)) /\
  initial_results fresh_world = ∅ /\
  initial_errors fresh_world = ∅ /\
  exists b w res pm err,
    execute_agents_parallel (StreamlitParallelEngine mixed_agents)
                            (py "005930") (py "삼성전자") fresh_world = (Ok b, w) /\
    parallel_results (session_state w) = Some res /\
    parallel_progress (session_state w) = Some pm /\
    parallel_errors (session_state w) = Some err /\
    (forall k, submitted (StreamlitParallelEngine mixed_agents) k ->
       exists p, pm !! k = Some p /\
         (is_Some (res !! k) <-> status p = Completed) /\
         (is_Some (err !! k) <-> status p = Error) /\
         (is_Some (res !! k) \/ is_Some (err !! k)) /\
         ~ (is_Some (res !! k) /\ is_Some (err !! k))).
Proof.
  split; [apply (bool_decide_unpack _); by vm_compute|].
  split; [reflexivity|]. split; [reflexivity|].
  apply (C10_results_xor_errors (StreamlitParallelEngine mixed_agents)
           (py "005930") (py "삼성전자") fresh_world).
  - apply (bool_decide_unpack _). by vm_compute.
  - reflexivity.
  - reflexivity.
Defined.

(* ===================================================================== *)
(** * Further properties of the engine and its callers *)
(* ===================================================================== *)

(** ** The session after a run, in one statement *)

Lemma execute_agents_parallel_session self stock_code company_name w0 :
  NoDup (config_keys self) ->
  exists b w res pm err,
    execute_agents_parallel self stock_code company_name w0 = (Ok b, w) /\
    parallel_results (session_state w) = Some res /\
    parallel_progress (session_state w) = Some pm /\
    parallel_errors (session_state w) = Some err /\
    parallel_execution_started (session_state w) = Some true /\
    parallel_execution_completed (session_state w) = Some true /\
    b = (negb (bool_decide (agent_config self = [])) && (5 <=? count_completed pm)%nat) /\
    (forall k, ~ submitted self k ->
               res !! k = initial_results w0 !! k /\
               err !! k = initial_errors w0 !! k /\
               pm !! k = init_all (config_keys self) (initial_progress w0) !! k) /\
    (forall k, submitted self k ->
               exists fut ts,
                 _execute_single_agent_with_context self k stock_code company_name ts
                 = (outcome fut, done_at fut) /\
                 recorded (initial_results w0) (initial_errors w0) (clock w0)
                          fut k res pm err).
Proof.
  intros Hnd.
  destruct (execute_agents_parallel_spec self stock_code company_name w0 Hnd)
    as (b & w & Hrun & [(Hne & Htry & Hpost) | (Hempty & -> & ->)]).
  - destruct Hpost as (res & pm & err & ca & t & pl & -> & -> & Hrest & Hsub).
    eexists _, _, res, pm, err. split; [exact Hrun|].
    do 5 (split; [reflexivity|]).
    split; [|split; assumption].
    rewrite bool_decide_eq_false_2 by exact Hne. reflexivity.
  - eexists _, _, _, _, _. split; [exact Hrun|].
    do 5 (split; [reflexivity|]). split.
    + by rewrite bool_decide_eq_true_2.
    + split.
      * intros k _. unfold config_keys. rewrite Hempty. done.
      * intros k [Hk _]. unfold config_keys in Hk. rewrite Hempty in Hk.
        by apply elem_of_nil in Hk.
Qed.

Lemma task_ok_fields self k stock_code company_name ts tr t' :
  _execute_single_agent_with_context self k stock_code company_name ts = (Ok tr, t') ->
  result_agent_name tr = k /\
  result_status tr = py "success" /\
  result_token_count tr = split_len (result_content tr) /\
  result_execution_time tr = t' /\
  exists h, agents self !! k = Some (Handle h) /\ t' = (ts + latency h)%nat.
Proof.
  unfold _execute_single_agent_with_context, try_except.
  destruct (agents self !! k) as [[|h]|]; [discriminate| |discriminate].
  unfold bind at 1. unfold agent_invoke.
  destruct (invoke h _) as [r|e]; [|discriminate].
  destruct (messages r) as [[|m ms]|]; [discriminate| |discriminate].
  intros [= <- <-]. cbn. repeat split; eauto.
Qed.

Lemma task_falsy self k stock_code company_name ts :
  agents self !! k = Some Falsy ->
  _execute_single_agent_with_context self k stock_code company_name ts
  = (Raise (ValueError (py "에이전트를 찾을 수 없음: " ++ k)), ts).
Proof.
  intros Hag. unfold _execute_single_agent_with_context, try_except.
  by rewrite Hag.
Qed.

Lemma elem_of_submitted_keys self k : k ∈ submitted_keys self <-> submitted self k.
Proof. unfold submitted_keys, submitted. rewrite list_elem_of_filter. tauto. Qed.

(** X1. The completion-marker step is idempotent on every text, for every
    agent id: a second application changes nothing, because after the first
    one the text contains the agent's marker. *)
Theorem marker_step_idempotent (agent_name content : pystr) :
  append_completion_signal agent_name (append_completion_signal agent_name content)
  = append_completion_signal agent_name content /\
  contains (_get_completion_signal agent_name)
           (append_completion_signal agent_name content) = true.
Proof.
  split.
  - apply append_completion_signal_present, append_completion_signal_contains.
  - apply append_completion_signal_contains.
Qed.

(** X2. Whenever the task executor returns a result for [k], started at time
    [ts]: the result names [k], has status "success", its content contains
    the completion marker of [k], its token count is the number of
    whitespace-separated tokens of that content, and it is stamped with the
    time at which the handle's call ended. [k] then has a usable handle. *)
Theorem task_result_is_well_formed (self : Engine) (k stock_code company_name : pystr)
    (ts : nat) (tr : TaskResult) (t' : nat) :
  _execute_single_agent_with_context self k stock_code company_name ts = (Ok tr, t') ->
  result_agent_name tr = k /\
  result_status tr = py "success" /\
  contains (_get_completion_signal k) (result_content tr) = true /\
  result_token_count tr = split_len (result_content tr) /\
  result_execution_time tr = t' /\
  exists h, agents self !! k = Some (Handle h) /\ t' = (ts + latency h)%nat.
Proof.
  intros Htask.
  destruct (task_ok_fields _ _ _ _ _ _ _ Htask) as (Hn & Hs & Htok & Ht & Hh).
  destruct (task_ok_content _ _ _ _ _ _ _ Htask) as (c & Hc).
  split; [exact Hn|]. split; [exact Hs|]. split; [|by repeat split].
  rewrite Hc. apply append_completion_signal_contains.
Qed.

Lemma task_result_is_well_formed_witness :
  _execute_single_agent_with_context
    (StreamlitParallelEngine (everyone (says 2 (py "보고서"))))
    (py "esg_expert") (py "005930") (py "삼성전자") 5%nat
  = (Ok sample_esg_result, 7%nat) /\
  (result_agent_name sample_esg_result = py "esg_expert" /\
   result_status sample_esg_result = py "success" /\
   contains (_get_completion_signal (py "esg_expert"))
            (result_content sample_esg_result) = true /\
   result_token_count sample_esg_result = split_len (result_content sample_esg_result) /\
   result_execution_time sample_esg_result = 7%nat /\
   exists h, agents (StreamlitParallelEngine (everyone (says 2 (py "보고서"))))
               !! py "esg_expert" = Some (Handle h) /\ 7%nat = (5 + latency h)%nat).
Proof.
  split; [by vm_compute|].
  apply (task_result_is_well_formed
           (StreamlitParallelEngine (everyone (says 2 (py "보고서"))))
           (py "esg_expert") (py "005930") (py "삼성전자") 5%nat sample_esg_result 7%nat).
  by vm_compute.
Defined.

Lemma entry_Some {V} (field : SessionState -> option (gmap pystr V)) k w d :
  field (session_state w) = Some d -> entry field k w = d !! k.
Proof. unfold entry. by intros ->. Qed.

Lemma entry_initial_progress k w : entry parallel_progress k w = initial_progress w !! k.
Proof.
  unfold entry, initial_progress.
  destruct (parallel_progress (session_state w)); [done|simpl; by rewrite lookup_empty].
Qed.

Lemma entry_initial_results k w : entry parallel_results k w = initial_results w !! k.
Proof.
  unfold entry, initial_results.
  destruct (parallel_results (session_state w)); [done|simpl; by rewrite lookup_empty].
Qed.

Lemma entry_initial_errors k w : entry parallel_errors k w = initial_errors w !! k.
Proof.
  unfold entry, initial_errors.
  destruct (parallel_errors (session_state w)); [done|simpl; by rewrite lookup_empty].
Qed.

(** X3. An agent of the catalog that has no entry in [self.agents] is skipped,
    not failed: after the run its progress entry is the initial one (status
    ['waiting'], no start or end time, no error) and the run has written
    nothing for it to the result and error maps. *)
Theorem skipped_agent_stays_waiting (self : Engine) (stock_code company_name : pystr)
    (w0 : World) (k : pystr) :
  NoDup (config_keys self) ->
  k ∈ config_keys self ->
  agents self !! k = None ->
  exists b w,
    execute_agents_parallel self stock_code company_name w0 = (Ok b, w) /\
    entry parallel_progress k w = Some waiting_progress /\
    entry parallel_results k w = initial_results w0 !! k /\
    entry parallel_errors k w = initial_errors w0 !! k.
Proof.
  intros Hnd Hk Hag.
  destruct (execute_agents_parallel_session self stock_code company_name w0 Hnd)
    as (b & w & res & pm & err & Hrun & Hres & Hpm & Herr & _ & _ & _ & Hrest & _).
  exists b, w. split; [exact Hrun|].
  destruct (Hrest k) as (Hr & He & Hp).
  { intros [_ Hs]. rewrite Hag in Hs. by destruct Hs. }
  rewrite (entry_Some _ _ _ _ Hpm), (entry_Some _ _ _ _ Hres), (entry_Some _ _ _ _ Herr).
  rewrite Hp, Hr, He. by rewrite init_all_in.
Qed.

Lemma skipped_agent_stays_waiting_witness :
  NoDup (config_keys (StreamlitParallelEngine mixed_agents)) /\
  py "community_expert" ∈ config_keys (StreamlitParallelEngine mixed_agents) /\
  agents (StreamlitParallelEngine mixed_agents) !! py "community_expert" = None /\
  exists b w,
    execute_agents_parallel (StreamlitParallelEngine mixed_agents)
                            (py "005930") (py "삼성전자") stale_world = (Ok b, w) /\
    entry parallel_progress (py "community_expert") w = Some waiting_progress /\
    entry parallel_results (py "community_expert") w
    = initial_results stale_world !! py "community_expert" /\
    entry parallel_errors (py "community_expert") w
    = initial_errors stale_world !! py "community_expert".
Proof.
  split; [apply (bool_decide_unpack _); by vm_compute|].
  split; [apply (bool_decide_unpack _); by vm_compute|].
  split; [by vm_compute|].
  apply (skipped_agent_stays_waiting (StreamlitParallelEngine mixed_agents)
           (py "005930") (py "삼성전자") stale_world (py "community_expert")).
  - apply (bool_decide_unpack _). by vm_compute.
  - apply (bool_decide_unpack _). by vm_compute.
  - by vm_compute.
Defined.

(** X4. A run only touches the keys of its catalog: for any other key the
    progress, result and error maps hold after the run what they held before
    (nothing, where the map did not exist). *)
Theorem run_leaves_foreign_keys_alone (self : Engine) (stock_code company_name : pystr)
    (w0 : World) (k : pystr) :
  NoDup (config_keys self) ->
  k ∉ config_keys self ->
  exists b w,
    execute_agents_parallel self stock_code company_name w0 = (Ok b, w) /\
    entry parallel_progress k w = entry parallel_progress k w0 /\
    entry parallel_results k w = entry parallel_results k w0 /\
    entry parallel_errors k w = entry parallel_errors k w0.
Proof.
  intros Hnd Hk.
  destruct (execute_agents_parallel_session self stock_code company_name w0 Hnd)
    as (b & w & res & pm & err & Hrun & Hres & Hpm & Herr & _ & _ & _ & Hrest & _).
  exists b, w. split; [exact Hrun|].
  destruct (Hrest k) as (Hr & He & Hp); [by intros [? _]|].
  rewrite (entry_Some _ _ _ _ Hpm), (entry_Some _ _ _ _ Hres), (entry_Some _ _ _ _ Herr).
  rewrite Hp, Hr, He, init_all_notin by exact Hk.
  by rewrite entry_initial_progress, entry_initial_results, entry_initial_errors.
Qed.

Lemma run_leaves_foreign_keys_alone_witness :
  NoDup (config_keys (StreamlitParallelEngine mixed_agents)) /\
  (py "macro_expert" ∉ config_keys (StreamlitParallelEngine mixed_agents)) /\
  exists b w,
    execute_agents_parallel (StreamlitParallelEngine mixed_agents)
                            (py "005930") (py "삼성전자") stale_world = (Ok b, w) /\
    entry parallel_progress (py "macro_expert") w
    = entry parallel_progress (py "macro_expert") stale_world /\
    entry parallel_results (py "macro_expert") w
    = entry parallel_results (py "macro_expert") stale_world /\
    entry parallel_errors (py "macro_expert") w
    = entry parallel_errors (py "macro_expert") stale_world.
Proof.
  split; [apply (bool_decide_unpack _); by vm_compute|].
  split; [apply (bool_decide_unpack _); by vm_compute|].
  apply (run_leaves_foreign_keys_alone (StreamlitParallelEngine mixed_agents)
           (py "005930") (py "삼성전자") stale_world (py "macro_expert")).
  - apply (bool_decide_unpack _). by vm_compute.
  - apply (bool_decide_unpack _). by vm_compute.
Defined.

(** X5. However a call of [execute_agents_parallel] ends (normally, or
    through its exception handler when the pool cannot be created), the
    session afterwards has [parallel_execution_started] and
    [parallel_execution_completed] both [True] and all three maps exist. *)
Theorem run_sets_both_flags (self : Engine) (stock_code company_name : pystr)
    (w0 : World) :
  NoDup (config_keys self) ->
  exists b w,
    execute_agents_parallel self stock_code company_name w0 = (Ok b, w) /\
    parallel_execution_started (session_state w) = Some true /\
    parallel_execution_completed (session_state w) = Some true /\
    is_Some (parallel_results (session_state w)) /\
    is_Some (parallel_progress (session_state w)) /\
    is_Some (parallel_errors (session_state w)).
Proof.
  intros Hnd.
  destruct (execute_agents_parallel_session self stock_code company_name w0 Hnd)
    as (b & w & res & pm & err & Hrun & Hres & Hpm & Herr & Hst & Hco & _).
  exists b, w. rewrite Hres, Hpm, Herr. repeat split; eauto.
Qed.

Lemma run_sets_both_flags_witness :
  NoDup (config_keys no_catalog) /\
  exists b w,
    execute_agents_parallel no_catalog (py "005930") (py "삼성전자") fresh_world
    = (Ok b, w) /\
    parallel_execution_started (session_state w) = Some true /\
    parallel_execution_completed (session_state w) = Some true /\
    is_Some (parallel_results (session_state w)) /\
    is_Some (parallel_progress (session_state w)) /\
    is_Some (parallel_errors (session_state w)).
Proof.
  split; [apply (bool_decide_unpack _); by vm_compute|].
  apply (run_sets_both_flags no_catalog (py "005930") (py "삼성전자") fresh_world).
  apply (bool_decide_unpack _). by vm_compute.
Defined.

(** X6. A catalog agent whose entry in [self.agents] is false in a boolean
    context (such as [None]) is submitted and fails inside its task: it is
    recorded with status ['error'], progress 0, and the text
    "에이전트를 찾을 수 없음: k" both in its progress entry and in the error
    map; the result map is not written for it. *)
Theorem falsy_handle_is_recorded_as_error (self : Engine)
    (stock_code company_name : pystr) (w0 : World) (k : pystr) :
  NoDup (config_keys self) ->
  k ∈ config_keys self ->
  agents self !! k = Some Falsy ->
  exists b w p,
    execute_agents_parallel self stock_code company_name w0 = (Ok b, w) /\
    entry parallel_progress k w = Some p /\
    status p = Error /\ progress p = 0%nat /\
    error p = Some (py "에이전트를 찾을 수 없음: " ++ k) /\
    entry parallel_errors k w = Some (py "에이전트를 찾을 수 없음: " ++ k) /\
    entry parallel_results k w = initial_results w0 !! k.
Proof.
  intros Hnd Hk Hag.
  destruct (execute_agents_parallel_session self stock_code company_name w0 Hnd)
    as (b & w & res & pm & err & Hrun & Hres & Hpm & Herr & _ & _ & _ & _ & Hsub).
  destruct (Hsub k) as (fut & ts & Htask & Hrec); [split; [done|by rewrite Hag]|].
  rewrite (task_falsy self k stock_code company_name ts Hag) in Htask.
  injection Htask as Hout _.
  apply recorded_progress in Hrec as (p & Hp & Hcase).
  exists b, w, p. split; [exact Hrun|].
  rewrite (entry_Some _ _ _ _ Hpm), (entry_Some _ _ _ _ Hres), (entry_Some _ _ _ _ Herr).
  split; [exact Hp|].
  destruct Hcase as [(_ & _ & _ & _ & r & Hr & _)
                    |(Hs & Hpr & _ & e & He & Herrp & Hek & Hrk)].
  - rewrite Hr in Hout. discriminate.
  - rewrite He in Hout. injection Hout as <-. by rewrite Hs, Hpr, Herrp, Hek, Hrk.
Qed.

Lemma falsy_handle_is_recorded_as_error_witness :
  NoDup (config_keys (StreamlitParallelEngine mixed_agents)) /\
  py "esg_expert" ∈ config_keys (StreamlitParallelEngine mixed_agents) /\
  agents (StreamlitParallelEngine mixed_agents) !! py "esg_expert" = Some Falsy /\
  exists b w p,
    execute_agents_parallel (StreamlitParallelEngine mixed_agents)
                            (py "005930") (py "삼성전자") fresh_world = (Ok b, w) /\
    entry parallel_progress (py "esg_expert") w = Some p /\
    status p = Error /\ progress p = 0%nat /\
    error p = Some (py "에이전트를 찾을 수 없음: " ++ py "esg_expert") /\
    entry parallel_errors (py "esg_expert") w
    = Some (py "에이전트를 찾을 수 없음: " ++ py "esg_expert") /\
    entry parallel_results (py "esg_expert") w
    = initial_results fresh_world !! py "esg_expert".
Proof.
  split; [apply (bool_decide_unpack _); by vm_compute|].
  split; [apply (bool_decide_unpack _); by vm_compute|].
  split; [by vm_compute|].
  apply (falsy_handle_is_recorded_as_error (StreamlitParallelEngine mixed_agents)
           (py "005930") (py "삼성전자") fresh_world (py "esg_expert")).
  - apply (bool_decide_unpack _). by vm_compute.
  - apply (bool_decide_unpack _). by vm_compute.
  - by vm_compute.
Defined.

(** X7. When the handle of a catalog agent raises [e], however long the call
    took, the agent is recorded with status ['error'] and exactly [str(e)] as
    its error text, in the progress entry and in the error map: the exception
    travels through the task's [raise e] and [future.result] unchanged, and
    no timeout text replaces it. The result map is not written for the agent. *)
Theorem handle_exception_text_is_recorded (self : Engine)
    (stock_code company_name : pystr) (w0 : World)
    (k : pystr) (h : AgentHandle) (e : Exc) :
  NoDup (config_keys self) ->
  k ∈ config_keys self ->
  agents self !! k = Some (Handle h) ->
  invoke h (_create_agent_request k stock_code company_name) = Raises e ->
  exists b w p,
    execute_agents_parallel self stock_code company_name w0 = (Ok b, w) /\
    entry parallel_progress k w = Some p /\
    status p = Error /\
    error p = Some (exc_str e) /\
    entry parallel_errors k w = Some (exc_str e) /\
    entry parallel_results k w = initial_results w0 !! k.
Proof.
  intros Hnd Hk Hag Hinv.
  destruct (execute_agents_parallel_session self stock_code company_name w0 Hnd)
    as (b & w & res & pm & err & Hrun & Hres & Hpm & Herr & _ & _ & _ & _ & Hsub).
  destruct (Hsub k) as (fut & ts & Htask & Hrec); [split; [done|by rewrite Hag]|].
  rewrite (task_raises self k stock_code company_name h e ts Hag Hinv) in Htask.
  injection Htask as Hout _.
  apply recorded_progress in Hrec as (p & Hp & Hcase).
  exists b, w, p. split; [exact Hrun|].
  rewrite (entry_Some _ _ _ _ Hpm), (entry_Some _ _ _ _ Hres), (entry_Some _ _ _ _ Herr).
  split; [exact Hp|].
  destruct Hcase as [(_ & _ & _ & _ & r & Hr & _)
                    |(Hs & _ & _ & e' & He & Herrp & Hek & Hrk)].
  - rewrite Hr in Hout. discriminate.
  - rewrite He in Hout. injection Hout as <-. by rewrite Hs, Herrp, Hek, Hrk.
Qed.

Lemma handle_exception_text_is_recorded_witness :
  NoDup (config_keys (StreamlitParallelEngine mixed_agents)) /\
  py "financial_expert" ∈ config_keys (StreamlitParallelEngine mixed_agents) /\
  agents (StreamlitParallelEngine mixed_agents) !! py "financial_expert"
  = Some (Handle rate_limited_handle) /\
  invoke rate_limited_handle
         (_create_agent_request (py "financial_expert") (py "005930") (py "삼성전자"))
  = Raises rate_limit_error /\
  exists b w p,
    execute_agents_parallel (StreamlitParallelEngine mixed_agents)
                            (py "005930") (py "삼성전자") fresh_world = (Ok b, w) /\
    entry parallel_progress (py "financial_expert") w = Some p /\
    status p = Error /\
    error p = Some (exc_str rate_limit_error) /\
    entry parallel_errors (py "financial_expert") w = Some (exc_str rate_limit_error) /\
    entry parallel_results (py "financial_expert") w
    = initial_results fresh_world !! py "financial_expert".
Proof.
  split; [apply (bool_decide_unpack _); by vm_compute|].
  split; [apply (bool_decide_unpack _); by vm_compute|].
  split; [by vm_compute|]. split; [reflexivity|].
  apply (handle_exception_text_is_recorded (StreamlitParallelEngine mixed_agents)
           (py "005930") (py "삼성전자") fresh_world (py "financial_expert")
           rate_limited_handle rate_limit_error).
  - apply (bool_decide_unpack _). by vm_compute.
  - apply (bool_decide_unpack _). by vm_compute.
  - by vm_compute.
  - reflexivity.
Defined.

(** ** Counting completed agents *)

Lemma count_completed_size (pm : gmap pystr Progress) :
  count_completed pm = size (completed_keys pm).
Proof.
  unfold count_completed, completed_keys.
  rewrite size_dom, map_filter_alt, map_size_list_to_map; [done|].
  apply (sublist_NoDup _ (map_to_list pm).*1).
  - apply NoDup_fst_map_to_list.
  - apply fmap_sublist, sublist_filter.
Qed.

Lemma elem_of_completed_keys (pm : gmap pystr Progress) k :
  k ∈ completed_keys pm <-> exists p, pm !! k = Some p /\ status p = Completed.
Proof.
  unfold completed_keys. rewrite elem_of_dom. split.
  - intros [p Hp]. apply map_lookup_filter_Some in Hp as [Hp Hs]. by exists p.
  - intros (p & Hp & Hs). exists p. by apply map_lookup_filter_Some.
Qed.

Lemma length_submitted_keys self :
  (length (submitted_keys self) <= length (agent_config self))%nat.
Proof.
  unfold submitted_keys. etransitivity; [apply length_filter|].
  unfold config_keys. by rewrite length_fmap.
Qed.

Section RunCounts.
Context (self : Engine) (stock_code company_name : pystr) (w0 : World).
Context (res : gmap pystr TaskResult) (pm : gmap pystr Progress) (err : gmap pystr pystr).
Hypothesis keys_nodup : NoDup (config_keys self).
Hypothesis rest :
  forall k, ~ submitted self k ->
            res !! k = initial_results w0 !! k /\
            err !! k = initial_errors w0 !! k /\
            pm !! k = init_all (config_keys self) (initial_progress w0) !! k.
Hypothesis subm :
  forall k, submitted self k ->
            exists fut ts,
              _execute_single_agent_with_context self k stock_code company_name ts
              = (outcome fut, done_at fut) /\
              recorded (initial_results w0) (initial_errors w0) (clock w0)
                       fut k res pm err.

(** From an empty progress map, only submitted agents are completed, and a
    completed agent has its result stored. *)
Lemma completed_is_submitted k :
  initial_progress w0 = ∅ ->
  k ∈ completed_keys pm -> submitted self k /\ is_Some (res !! k).
Proof.
  intros Hfresh (p & Hp & Hs)%elem_of_completed_keys.
  destruct (decide (k ∈ config_keys self)) as [Hk|Hk];
    [destruct (agents self !! k) as [a|] eqn:Hag|].
  - assert (Hsub : submitted self k) by (split; [done|by rewrite Hag]).
    split; [exact Hsub|].
    destruct (subm k Hsub) as (fut & ts & _ & Hrec).
    apply recorded_progress in Hrec as (p' & Hp' & Hcase).
    rewrite Hp in Hp'. injection Hp' as <-.
    destruct Hcase as [(_ & _ & _ & _ & r & _ & Hr & _)|(Hs' & _)];
      [by rewrite Hr|rewrite Hs' in Hs; discriminate].
  - destruct (rest k) as (_ & _ & Hp'); [intros [_ Hx]; rewrite Hag in Hx; by destruct Hx|].
    rewrite Hp, init_all_in in Hp' by exact Hk. injection Hp' as ->. discriminate.
  - destruct (rest k) as (_ & _ & Hp'); [by intros [? _]|].
    rewrite Hp, init_all_notin, Hfresh, lookup_empty in Hp' by exact Hk. discriminate.
Qed.

(** From an empty result map, every stored result belongs to a submitted
    agent that is completed, and is what that agent's task returned. *)
Lemma stored_is_completed k tr :
  initial_results w0 = ∅ ->
  res !! k = Some tr ->
  k ∈ completed_keys pm /\ submitted self k /\
  exists ts t',
    _execute_single_agent_with_context self k stock_code company_name ts = (Ok tr, t').
Proof.
  intros Hfresh Hr.
  destruct (decide (submitted self k)) as [Hsub|Hnot].
  - destruct (subm k Hsub) as (fut & ts & Htask & Hrec).
    apply recorded_progress in Hrec as (p & Hp & Hcase).
    destruct Hcase as [(Hs & _ & _ & _ & r & Hout & Hr' & _)|(_ & _ & _ & e & _ & _ & _ & Hr')].
    + rewrite Hr in Hr'. injection Hr' as <-.
      split; [apply elem_of_completed_keys; eauto|]. split; [done|].
      exists ts, (done_at fut). by rewrite Htask, Hout.
    + rewrite Hr, Hfresh, lookup_empty in Hr'. discriminate.
  - destruct (rest k Hnot) as (Hr' & _).
    rewrite Hr, Hfresh, lookup_empty in Hr'. discriminate.
Qed.

Lemma completed_keys_dom_results :
  initial_progress w0 = ∅ -> initial_results w0 = ∅ ->
  completed_keys pm = dom res.
Proof.
  intros Hp0 Hr0. apply set_eq. intros k. rewrite elem_of_dom. split.
  - intros Hk. by apply completed_is_submitted.
  - intros [tr Htr]. by apply (stored_is_completed k tr).
Qed.

Lemma count_completed_le_submitted :
  initial_progress w0 = ∅ ->
  (count_completed pm <= length (submitted_keys self))%nat.
Proof.
  intros Hp0. rewrite count_completed_size.
  assert (Hnd : NoDup (submitted_keys self)) by (by apply NoDup_filter).
  rewrite <- (size_list_to_set (C := gset pystr) _ Hnd).
  apply subseteq_size. intros k Hk. apply elem_of_list_to_set, elem_of_submitted_keys.
  by apply completed_is_submitted.
Qed.

End RunCounts.

(** X8. After a run that started from empty (or absent) progress and result
    maps, the result map has an entry for exactly the agents whose status is
    ['completed']; so the number of stored results is the number the quorum
    test counts, and it is at most the number of submitted agents. *)
Theorem fresh_run_results_are_the_completed (self : Engine)
    (stock_code company_name : pystr) (w0 : World) :
  NoDup (config_keys self) ->
  initial_progress w0 = ∅ ->
  initial_results w0 = ∅ ->
  exists b w res pm,
    execute_agents_parallel self stock_code company_name w0 = (Ok b, w) /\
    parallel_results (session_state w) = Some res /\
    parallel_progress (session_state w) = Some pm /\
    dom res = completed_keys pm /\
    size res = count_completed pm /\
    (count_completed pm <= length (submitted_keys self))%nat.
Proof.
  intros Hnd Hp0 Hr0.
  destruct (execute_agents_parallel_session self stock_code company_name w0 Hnd)
    as (b & w & res & pm & err & Hrun & Hres & Hpm & _ & _ & _ & _ & Hrest & Hsub).
  exists b, w, res, pm. split; [exact Hrun|]. split; [exact Hres|]. split; [exact Hpm|].
  assert (Hdom : completed_keys pm = dom res)
    by (eapply completed_keys_dom_results; eauto).
  split; [done|]. split.
  - by rewrite count_completed_size, Hdom, size_dom.
  - eapply count_completed_le_submitted; eauto.
Qed.

Lemma fresh_run_results_are_the_completed_witness :
  NoDup (config_keys (StreamlitParallelEngine mixed_agents)) /\
  initial_progress fresh_world = ∅ /\
  initial_results fresh_world = ∅ /\
  exists b w res pm,
    execute_agents_parallel (StreamlitParallelEngine mixed_agents)
                            (py "005930") (py "삼성전자") fresh_world = (Ok b, w) /\
    parallel_results (session_state w) = Some res /\
    parallel_progress (session_state w) = Some pm /\
    dom res = completed_keys pm /\
    size res = count_completed pm /\
    (count_completed pm <= length (submitted_keys (StreamlitParallelEngine mixed_agents)))%nat.
Proof.
  split; [apply (bool_decide_unpack _); by vm_compute|].
  split; [reflexivity|]. split; [reflexivity|].
  apply (fresh_run_results_are_the_completed (StreamlitParallelEngine mixed_agents)
           (py "005930") (py "삼성전자") fresh_world).
  - apply (bool_decide_unpack _). by vm_compute.
  - reflexivity.
  - reflexivity.
Defined.

(** X9. After a run that started from an empty (or absent) result map, every
    entry of the result map sits under the key of the agent that produced
    it: it names that agent, that agent was submitted and its status is
    ['completed'], and the stored content contains that agent's completion
    marker. No agent's result is stored under another agent's key. *)
Theorem stored_results_belong_to_their_key (self : Engine)
    (stock_code company_name : pystr) (w0 : World) :
  NoDup (config_keys self) ->
  initial_results w0 = ∅ ->
  exists b w res pm,
    execute_agents_parallel self stock_code company_name w0 = (Ok b, w) /\
    parallel_results (session_state w) = Some res /\
    parallel_progress (session_state w) = Some pm /\
    (forall k tr,
        res !! k = Some tr ->
        result_agent_name tr = k /\
        submitted self k /\
        k ∈ completed_keys pm /\
        contains (_get_completion_signal k) (result_content tr) = true /\
        result_token_count tr = split_len (result_content tr)).
Proof.
  intros Hnd Hr0.
  destruct (execute_agents_parallel_session self stock_code company_name w0 Hnd)
    as (b & w & res & pm & err & Hrun & Hres & Hpm & _ & _ & _ & _ & Hrest & Hsub).
  exists b, w, res, pm. split; [exact Hrun|]. split; [exact Hres|]. split; [exact Hpm|].
  intros k tr Hk.
  destruct (stored_is_completed self stock_code company_name w0 res pm err
              Hrest Hsub k tr Hr0 Hk) as (Hc & Hs & ts & t' & Htask).
  destruct (task_ok_fields _ _ _ _ _ _ _ Htask) as (Hn & _ & Htok & _).
  destruct (task_ok_content _ _ _ _ _ _ _ Htask) as (c & Hcont).
  repeat split; try done.
  - by destruct Hs.
  - by destruct Hs.
  - rewrite Hcont. apply append_completion_signal_contains.
Qed.

Lemma stored_results_belong_to_their_key_witness :
  NoDup (config_keys (StreamlitParallelEngine mixed_agents)) /\
  initial_results stale_world = ∅ /\
  exists b w res pm,
    execute_agents_parallel (StreamlitParallelEngine mixed_agents)
                            (py "005930") (py "삼성전자") stale_world = (Ok b, w) /\
    parallel_results (session_state w) = Some res /\
    parallel_progress (session_state w) = Some pm /\
    (forall k tr,
        res !! k = Some tr ->
        result_agent_name tr = k /\
        submitted (StreamlitParallelEngine mixed_agents) k /\
        k ∈ completed_keys pm /\
        contains (_get_completion_signal k) (result_content tr) = true /\
        result_token_count tr = split_len (result_content tr)).
Proof.
  split; [apply (bool_decide_unpack _); by vm_compute|].
  split; [reflexivity|].
  apply (stored_results_belong_to_their_key (StreamlitParallelEngine mixed_agents)
           (py "005930") (py "삼성전자") stale_world).
  - apply (bool_decide_unpack _). by vm_compute.
  - reflexivity.
Defined.

(** X10. Quorum needs handles: when fewer than five catalog agents have an
    entry in [self.agents] and the progress map was empty (or absent) before
    the run, [execute_agents_parallel] returns [False], whatever the handles
    answer. *)
Theorem too_few_handles_means_false (self : Engine)
    (stock_code company_name : pystr) (w0 : World) :
  NoDup (config_keys self) ->
  initial_progress w0 = ∅ ->
  (length (submitted_keys self) < 5)%nat ->
  exists w, execute_agents_parallel self stock_code company_name w0 = (Ok false, w).
Proof.
  intros Hnd Hp0 Hfew.
  destruct (execute_agents_parallel_session self stock_code company_name w0 Hnd)
    as (b & w & res & pm & err & Hrun & _ & _ & _ & _ & _ & Hb & Hrest & Hsub).
  exists w. rewrite Hrun. f_equal. f_equal. rewrite Hb.
  assert (Hle : (count_completed pm <= length (submitted_keys self))%nat)
    by (eapply count_completed_le_submitted; eauto).
  rewrite (proj2 (Nat.leb_gt 5 (count_completed pm))) by lia.
  apply andb_false_r.
Qed.

Lemma too_few_handles_means_false_witness :
  NoDup (config_keys (StreamlitParallelEngine four_agents)) /\
  initial_progress fresh_world = ∅ /\
  (length (submitted_keys (StreamlitParallelEngine four_agents)) < 5)%nat /\
  exists w,
    execute_agents_parallel (StreamlitParallelEngine four_agents)
                            (py "005930") (py "삼성전자") fresh_world = (Ok false, w).
Proof.
  split; [apply (bool_decide_unpack _); by vm_compute|].
  split; [reflexivity|].
  split; [apply (bool_decide_unpack _); by vm_compute|].
  apply (too_few_handles_means_false (StreamlitParallelEngine four_agents)
           (py "005930") (py "삼성전자") fresh_world).
  - apply (bool_decide_unpack _). by vm_compute.
  - reflexivity.
  - apply (bool_decide_unpack _). by vm_compute.
Defined.



(** X12. [get_execution_status] right after a run that started from empty
    (or absent) progress and result maps: the status is "completed", the
    number of completed agents equals the number of available results and
    is at most the catalog size, so the reported fraction is at most 1; a
    returned [True] means that number is at least five. *)
Theorem status_after_fresh_run (self : Engine) (stock_code company_name : pystr)
    (w0 : World) :
  NoDup (config_keys self) ->
  initial_progress w0 = ∅ ->
  initial_results w0 = ∅ ->
  exists b w es n,
    execute_agents_parallel self stock_code company_name w0 = (Ok b, w) /\
    get_execution_status self w = (Ok es, w) /\
    es_status es = py "completed" /\
    es_completed_agents es = Some n /\
    es_results_available es = Some n /\
    es_total_agents es = Some (length (agent_config self)) /\
    (n <= length (agent_config self))%nat /\
    es_progress es = (if (0 <? length (agent_config self))%nat
                      then Quotient n (length (agent_config self)) else IntZero) /\
    (b = true -> (5 <= n)%nat).
Proof.
  intros Hnd Hp0 Hr0.
  destruct (execute_agents_parallel_session self stock_code company_name w0 Hnd)
    as (b & w & res & pm & err & Hrun & Hres & Hpm & _ & _ & Hco & Hb & Hrest & Hsub).
  assert (Hdom : completed_keys pm = dom res)
    by (eapply completed_keys_dom_results; eauto).
  assert (Hle : (count_completed pm <= length (submitted_keys self))%nat)
    by (eapply count_completed_le_submitted; eauto).
  eexists b, w, _, (count_completed pm). split; [exact Hrun|].
  unfold get_execution_status. rewrite Hpm, Hres, Hco. cbn [default].
  split; [reflexivity|]. cbn [es_status es_completed_agents es_results_available
                              es_total_agents es_progress].
  split; [reflexivity|]. split; [reflexivity|].
  split; [by rewrite count_completed_size, Hdom, size_dom|].
  split; [reflexivity|].
  split; [pose proof (length_submitted_keys self); lia|].
  split; [reflexivity|].
  intros ->. symmetry in Hb. apply andb_prop in Hb as [_ Hb]. by apply Nat.leb_le.
Qed.

Lemma status_after_fresh_run_witness :
  NoDup (config_keys (StreamlitParallelEngine mixed_agents)) /\
  initial_progress fresh_world = ∅ /\
  initial_results fresh_world = ∅ /\
  exists b w es n,
    execute_agents_parallel (StreamlitParallelEngine mixed_agents)
                            (py "005930") (py "삼성전자") fresh_world = (Ok b, w) /\
    get_execution_status (StreamlitParallelEngine mixed_agents) w = (Ok es, w) /\
    es_status es = py "completed" /\
    es_completed_agents es = Some n /\
    es_results_available es = Some n /\
    es_total_agents es
    = Some (length (agent_config (StreamlitParallelEngine mixed_agents))) /\
    (n <= length (agent_config (StreamlitParallelEngine mixed_agents)))%nat /\
    es_progress es
    = (if (0 <? length (agent_config (StreamlitParallelEngine mixed_agents)))%nat
       then Quotient n (length (agent_config (StreamlitParallelEngine mixed_agents)))
       else IntZero) /\
    (b = true -> (5 <= n)%nat).
Proof.
  split; [apply (bool_decide_unpack _); by vm_compute|].
  split; [reflexivity|]. split; [reflexivity|].
  apply (status_after_fresh_run (StreamlitParallelEngine mixed_agents)
           (py "005930") (py "삼성전자") fresh_world).
  - apply (bool_decide_unpack _). by vm_compute.
  - reflexivity.
  - reflexivity.
Defined.

(** ** Error entries *)

Section RunErrors.
Context (self : Engine) (stock_code company_name : pystr) (w0 : World).
Context (res : gmap pystr TaskResult) (pm : gmap pystr Progress) (err : gmap pystr pystr).
Hypothesis rest :
  forall k, ~ submitted self k ->
            res !! k = initial_results w0 !! k /\
            err !! k = initial_errors w0 !! k /\
            pm !! k = init_all (config_keys self) (initial_progress w0) !! k.
Hypothesis subm :
  forall k, submitted self k ->
            exists fut ts,
              _execute_single_agent_with_context self k stock_code company_name ts
              = (outcome fut, done_at fut) /\
              recorded (initial_results w0) (initial_errors w0) (clock w0)
                       fut k res pm err.

Lemma error_entry_iff_status_error k :
  initial_progress w0 = ∅ -> initial_errors w0 = ∅ ->
  is_Some (err !! k) <-> exists p, pm !! k = Some p /\ status p = Error.
Proof.
  intros Hp0 He0.
  destruct (decide (submitted self k)) as [Hsub|Hnot].
  - destruct (subm k Hsub) as (fut & ts & _ & Hrec).
    apply recorded_progress in Hrec as (p & Hp & Hcase).
    destruct Hcase as [(Hs & _ & _ & _ & r & _ & _ & He)|(Hs & _ & _ & e & _ & _ & He & _)].
    + rewrite He, He0, lookup_empty. split; [intros [? ?]; discriminate|].
      intros (p' & Hp' & Hs'). rewrite Hp in Hp'. injection Hp' as <-.
      rewrite Hs in Hs'. discriminate.
    + rewrite He. split; [intros _; eauto|eauto].
  - destruct (rest k Hnot) as (_ & He & Hp).
    rewrite He, He0, lookup_empty, Hp. split; [intros [? ?]; discriminate|].
    intros (p & Hp' & Hs).
    destruct (decide (k ∈ config_keys self)) as [Hk|Hk].
    + rewrite init_all_in in Hp' by exact Hk. injection Hp' as <-. discriminate.
    + rewrite init_all_notin, Hp0, lookup_empty in Hp' by exact Hk. discriminate.
Qed.

Lemma progress_keys_are_catalog :
  initial_progress w0 = ∅ -> dom pm = list_to_set (config_keys self).
Proof.
  intros Hp0. apply set_eq. intros k.
  rewrite elem_of_dom, elem_of_list_to_set.
  destruct (decide (submitted self k)) as [Hsub|Hnot].
  - destruct (subm k Hsub) as (fut & ts & _ & Hrec).
    apply recorded_progress in Hrec as (p & Hp & _).
    rewrite Hp. destruct Hsub. split; eauto.
  - destruct (rest k Hnot) as (_ & _ & Hp). rewrite Hp.
    destruct (decide (k ∈ config_keys self)) as [Hk|Hk].
    + rewrite init_all_in by exact Hk. split; eauto.
    + rewrite init_all_notin, Hp0, lookup_empty by exact Hk.
      split; [intros [? ?]; discriminate|done].
Qed.
End RunErrors.

(** X13. A run that follows [_reset_parallel_execution] shows this run only:
    whatever the session held before the reset, afterwards the progress map
    has exactly the catalog keys, the result map has an entry exactly for the
    agents with status ['completed'] and the error map exactly for those
    with status ['error']. *)
Theorem run_after_reset_shows_this_run_only (self : Engine)
    (stock_code company_name : pystr) (w0 : World) :
  NoDup (config_keys self) ->
  exists b w res pm err,
    execute_agents_parallel self stock_code company_name
                            (snd (_reset_parallel_execution w0)) = (Ok b, w) /\
    parallel_results (session_state w) = Some res /\
    parallel_progress (session_state w) = Some pm /\
    parallel_errors (session_state w) = Some err /\
    dom pm = list_to_set (config_keys self) /\
    (forall k, is_Some (res !! k) <-> exists p, pm !! k = Some p /\ status p = Completed) /\
    (forall k, is_Some (err !! k) <-> exists p, pm !! k = Some p /\ status p = Error).
Proof.
  intros Hnd.
  set (w1 := snd (_reset_parallel_execution w0)).
  assert (Hp0 : initial_progress w1 = ∅) by reflexivity.
  assert (Hr0 : initial_results w1 = ∅) by reflexivity.
  assert (He0 : initial_errors w1 = ∅) by reflexivity.
  destruct (execute_agents_parallel_session self stock_code company_name w1 Hnd)
    as (b & w & res & pm & err & Hrun & Hres & Hpm & Herr & _ & _ & _ & Hrest & Hsub).
  exists b, w, res, pm, err. do 4 (split; [done|]). split; [|split].
  - eapply progress_keys_are_catalog; eauto.
  - intros k. rewrite <- elem_of_completed_keys, <- elem_of_dom.
    by rewrite (completed_keys_dom_results self stock_code company_name w1 res pm err
                  Hrest Hsub Hp0 Hr0).
  - intros k. eapply error_entry_iff_status_error; eauto.
Qed.

Lemma run_after_reset_shows_this_run_only_witness :
  NoDup (config_keys (StreamlitParallelEngine mixed_agents)) /\
  exists b w res pm err,
    execute_agents_parallel (StreamlitParallelEngine mixed_agents)
                            (py "005930") (py "삼성전자")
                            (snd (_reset_parallel_execution stale_world)) = (Ok b, w) /\
    parallel_results (session_state w) = Some res /\
    parallel_progress (session_state w) = Some pm /\
    parallel_errors (session_state w) = Some err /\
    dom pm = list_to_set (config_keys (StreamlitParallelEngine mixed_agents)) /\
    (forall k, is_Some (res !! k) <-> exists p, pm !! k = Some p /\ status p = Completed) /\
    (forall k, is_Some (err !! k) <-> exists p, pm !! k = Some p /\ status p = Error).
Proof.
  split; [apply (bool_decide_unpack _); by vm_compute|].
  apply (run_after_reset_shows_this_run_only (StreamlitParallelEngine mixed_agents)
           (py "005930") (py "삼성전자") stale_world).
  apply (bool_decide_unpack _). by vm_compute.
Defined.

(** X14. [get_analysis_results] after a run that started from empty (or
    absent) progress and result maps returns one text per completed agent
    and nothing else; the text for [k] is the content stored for [k] and
    contains the completion marker of [k]. The session is not changed. *)
Theorem analysis_results_after_fresh_run (self : Engine)
    (stock_code company_name : pystr) (w0 : World) :
  NoDup (config_keys self) ->
  initial_progress w0 = ∅ ->
  initial_results w0 = ∅ ->
  exists b w pm texts,
    execute_agents_parallel self stock_code company_name w0 = (Ok b, w) /\
    parallel_progress (session_state w) = Some pm /\
    get_analysis_results w = (Ok texts, w) /\
    dom texts = completed_keys pm /\
    size texts = count_completed pm /\
    (forall k text,
        texts !! k = Some text ->
        (result_content <$> entry parallel_results k w) = Some text /\
        contains (_get_completion_signal k) text = true).
Proof.
  intros Hnd Hp0 Hr0.
  destruct (execute_agents_parallel_session self stock_code company_name w0 Hnd)
    as (b & w & res & pm & err & Hrun & Hres & Hpm & _ & _ & _ & _ & Hrest & Hsub).
  assert (Hdom : completed_keys pm = dom res)
    by (eapply completed_keys_dom_results; eauto).
  exists b, w, pm, (result_content <$> res).
  split; [exact Hrun|]. split; [exact Hpm|].
  split; [unfold get_analysis_results; by rewrite Hres|].
  split; [by rewrite dom_fmap_L|].
  split; [by rewrite map_size_fmap, count_completed_size, Hdom, size_dom|].
  intros k text Hk. rewrite lookup_fmap in Hk.
  rewrite (entry_Some _ _ _ _ Hres).
  destruct (res !! k) as [tr|] eqn:Htr; [|discriminate].
  injection Hk as <-. split; [reflexivity|].
  destruct (stored_is_completed self stock_code company_name w0 res pm err
              Hrest Hsub k tr Hr0 Htr) as (_ & _ & ts & t' & Htask).
  destruct (task_ok_content _ _ _ _ _ _ _ Htask) as (c & ->).
  apply append_completion_signal_contains.
Qed.

Lemma analysis_results_after_fresh_run_witness :
  NoDup (config_keys (StreamlitParallelEngine mixed_agents)) /\
  initial_progress fresh_world = ∅ /\
  initial_results fresh_world = ∅ /\
  exists b w pm texts,
    execute_agents_parallel (StreamlitParallelEngine mixed_agents)
                            (py "005930") (py "삼성전자") fresh_world = (Ok b, w) /\
    parallel_progress (session_state w) = Some pm /\
    get_analysis_results w = (Ok texts, w) /\
    dom texts = completed_keys pm /\
    size texts = count_completed pm /\
    (forall k text,
        texts !! k = Some text ->
        (result_content <$> entry parallel_results k w) = Some text /\
        contains (_get_completion_signal k) text = true).
Proof.
  split; [apply (bool_decide_unpack _); by vm_compute|].
  split; [reflexivity|]. split; [reflexivity|].
  apply (analysis_results_after_fresh_run (StreamlitParallelEngine mixed_agents)
           (py "005930") (py "삼성전자") fresh_world).
  - apply (bool_decide_unpack _). by vm_compute.
  - reflexivity.
  - reflexivity.
Defined.

(** ** The caller's branches *)

(** X15. [run_parallel_analysis] never reaches its "분석 실패" branch. Its
    reset empties the result and progress maps, so after the parallel
    attempt the number of results is the number of completed agents: either
    fewer than five agents completed and it falls back to the sequential
    analysis, or the report is built from the texts of at least five
    agents, which are what [get_analysis_results] returns. This holds for
    every session it is started in. *)
Theorem run_parallel_analysis_branches (parallel_engine : Engine)
    (symbol company_name : pystr) (w0 : World) :
  NoDup (config_keys parallel_engine) ->
  exists branch w pm,
    run_parallel_analysis parallel_engine symbol company_name w0 = (Ok branch, w) /\
    parallel_progress (session_state w) = Some pm /\
    ((branch = FallbackToSequential /\ (count_completed pm < 5)%nat)
     \/
     (exists texts,
         branch = ReportFromParallel texts /\
         get_analysis_results w = (Ok texts, w) /\
         size texts = count_completed pm /\
         (5 <= size texts)%nat)).
Proof.
  intros Hnd. unfold run_parallel_analysis.
  unfold bind at 1. rewrite run_parallel_analysis_reset_eq.
  cbv beta iota.
  match goal with |- context [bind _ _ ?w] => set (w1 := w) end.
  assert (Hp0 : initial_progress w1 = ∅) by reflexivity.
  assert (Hr0 : initial_results w1 = ∅) by reflexivity.
  destruct (execute_agents_parallel_session parallel_engine symbol company_name w1 Hnd)
    as (b & w & res & pm & err & Hrun & Hres & Hpm & _ & _ & _ & Hb & Hrest & Hsub).
  assert (Hdom : completed_keys pm = dom res)
    by (eapply completed_keys_dom_results; eauto).
  assert (Hsize : size (result_content <$> res) = count_completed pm)
    by (by rewrite map_size_fmap, count_completed_size, Hdom, size_dom).
  assert (Hget : get_analysis_results w = (Ok (result_content <$> res), w))
    by (unfold get_analysis_results; by rewrite Hres).
  unfold bind at 1. unfold try_except. unfold bind at 1. rewrite Hrun.
  destruct b.
  - symmetry in Hb. apply andb_prop in Hb as [_ Hb]. apply Nat.leb_le in Hb.
    cbn [negb]. unfold bind at 1. rewrite Hget, Hsize.
    rewrite (proj2 (Nat.ltb_ge _ _)) by lia.
    unfold ret at 1. unfold bind at 1. rewrite Hget, Hsize.
    rewrite (proj2 (Nat.leb_le _ _) Hb).
    eexists _, w, pm. split; [reflexivity|]. split; [exact Hpm|].
    right. exists (result_content <$> res). rewrite Hsize. by repeat split.
  - cbn [negb]. unfold raise at 1. unfold ret at 1.
    eexists _, w, pm. split; [reflexivity|]. split; [exact Hpm|].
    left. split; [reflexivity|].
    symmetry in Hb. apply andb_false_iff in Hb as [Hb|Hb].
    + apply negb_false_iff, bool_decide_eq_true in Hb.
      pose proof (count_completed_le_submitted parallel_engine symbol company_name
                    w1 res pm err Hnd Hrest Hsub Hp0) as Hle.
      pose proof (length_submitted_keys parallel_engine) as Hle'.
      rewrite Hb in Hle'. cbn in Hle'. lia.
    + by apply Nat.leb_gt in Hb.
Qed.

Lemma run_parallel_analysis_branches_witness :
  NoDup (config_keys (StreamlitParallelEngine mixed_agents)) /\
  exists branch w pm,
    run_parallel_analysis (StreamlitParallelEngine mixed_agents)
                          (py "005930") (py "삼성전자") stale_world = (Ok branch, w) /\
    parallel_progress (session_state w) = Some pm /\
    ((branch = FallbackToSequential /\ (count_completed pm < 5)%nat)
     \/
     (exists texts,
         branch = ReportFromParallel texts /\
         get_analysis_results w = (Ok texts, w) /\
         size texts = count_completed pm /\
         (5 <= size texts)%nat)).
Proof.
  split; [apply (bool_decide_unpack _); by vm_compute|].
  apply (run_parallel_analysis_branches (StreamlitParallelEngine mixed_agents)
           (py "005930") (py "삼성전자") stale_world).
  apply (bool_decide_unpack _). by vm_compute.
Defined.

(** ** Request texts *)

Lemma contains_unfold (sub s : pystr) :
  contains sub s = startswith s sub || match s with [] => false | _ :: r => contains sub r end.
Proof. by destruct s. Qed.

Lemma contains_middle (sub pre post : pystr) :
  contains sub (pre ++ sub ++ post) = true.
Proof.
  induction pre as [|c pre IH].
  - rewrite contains_unfold. cbn [app]. by rewrite startswith_app.
  - cbn [app contains]. by rewrite IH, orb_true_r.
Qed.

(** X16. Every request text names the stock: for every agent id, registered
    or not, the text built by [_create_agent_request] contains the stock
    code; for an agent id of the registry it also contains the company name. *)
Theorem request_names_the_stock (agent_name stock_code company_name : pystr) :
  contains stock_code (_create_agent_request agent_name stock_code company_name) = true /\
  (is_Some (base_requests stock_code company_name !! agent_name) ->
   contains company_name (_create_agent_request agent_name stock_code company_name) = true).
Proof.
  unfold _create_agent_request, dict_get.
  destruct (base_requests stock_code company_name !! agent_name) as [text|] eqn:Hreq.
  - apply elem_of_list_to_map_2 in Hreq.
    assert (Hshape : exists tail,
               text = py "종목 " ++ stock_code ++ py " (" ++ company_name ++ tail).
    { repeat (apply elem_of_cons in Hreq as [Hreq|Hreq];
              [apply pair_equal_spec in Hreq as [_ ->];
               rewrite <- !app_assoc; by eexists|]).
      by apply elem_of_nil in Hreq. }
    destruct Hshape as (tail & ->). split.
    + apply contains_middle.
    + intros _.
      rewrite (app_assoc (py "종목 ")), (app_assoc _ (py " (")).
      apply contains_middle.
  - split; [apply contains_middle|]. intros [? ?]. discriminate.
Qed.

(* ===================================================================== *)
(** * Properties of the conversation manager *)
(* ===================================================================== *)

Lemma length_ellipsis (n : nat) (s : pystr) : (length (ellipsis n s) <= n + 3)%nat.
Proof.
  unfold ellipsis. destruct (n <? length s)%nat eqn:Hn.
  - rewrite length_app, length_take. change (length (py "...")) with 3%nat. lia.
  - apply Nat.ltb_ge in Hn. lia.
Qed.

Lemma length_join_le (sep : pystr) (bound : nat) (l : list pystr) :
  Forall (fun x => (length x <= bound)%nat) l ->
  (length (join sep l) <= length l * (bound + length sep))%nat.
Proof.
  induction 1 as [|x l Hx Hl IH]; [cbn; lia|].
  cbn [join]. destruct l as [|y l'].
  - cbn. lia.
  - rewrite !length_app. cbn [length] in *. lia.
Qed.

Lemma length_slice_from_neg {A} (k : nat) (l : list A) :
  (1 <= k)%nat -> (length (slice_from (- Z.of_nat k) l) <= k)%nat.
Proof.
  intros Hk. unfold slice_from.
  rewrite (proj2 (Z.ltb_lt _ _)) by lia.
  rewrite length_drop, Z.opp_involutive, Nat2Z.id. lia.
Qed.

Lemma length_history_line (msg : ChatMessage) : (length (history_line msg) <= 208)%nat.
Proof.
  unfold history_line. rewrite !length_app.
  pose proof (length_ellipsis 200 (msg_content msg)).
  change (length (py ": ")) with 2%nat.
  destruct (decide (msg_role msg = py "user")).
  - change (length (py "사용자")) with 3%nat. lia.
  - change (length (py "AI")) with 2%nat. lia.
Qed.

(** X17. The conversation history put into a prompt is bounded: for
    [num_messages >= 1], [_get_recent_conversation_history] quotes at most
    [2 * num_messages] messages, each cut to 200 characters, so the text has
    at most [418 * num_messages] characters; with no messages it is
    "이전 대화 없음"; with the key [chat_messages] absent it raises
    [AttributeError]. The session is not changed. *)
Theorem recent_history_is_bounded (num_messages : Z) (s : ConversationState) :
  (1 <= num_messages)%Z ->
  match chat_messages s with
  | None =>
    _get_recent_conversation_history num_messages s
    = (Raise (AttributeError (py "chat_messages")), s)
  | Some messages0 =>
    exists text,
      _get_recent_conversation_history num_messages s = (Ok text, s) /\
      (length text <= 418 * Z.to_nat num_messages)%nat /\
      (messages0 = [] -> text = py "이전 대화 없음")
  end.
Proof.
  intros Hn. unfold _get_recent_conversation_history, bind, read_key.
  destruct (chat_messages s) as [[|m ms]|] eqn:Hchat; [| |reflexivity].
  - eexists. split; [reflexivity|]. split; [|done].
    change (length (py "이전 대화 없음")) with 8%nat. lia.
  - rewrite Hchat. eexists. split; [reflexivity|]. split; [|discriminate].
    etransitivity.
    { apply (length_join_le [LF] 208). apply Forall_fmap, Forall_forall.
      intros msg _. apply length_history_line. }
    rewrite length_fmap. cbn [length].
    assert (Hk : (length (slice_from (- num_messages * 2) (m :: ms))
                  <= 2 * Z.to_nat num_messages)%nat).
    { replace (- num_messages * 2)%Z with (- Z.of_nat (2 * Z.to_nat num_messages))%Z by lia.
      apply length_slice_from_neg. lia. }
    nia.
Qed.

Lemma recent_history_is_bounded_witness :
  (1 <= 3)%Z /\
  match chat_messages sample_conversation with
  | None =>
    _get_recent_conversation_history 3 sample_conversation
    = (Raise (AttributeError (py "chat_messages")), sample_conversation)
  | Some messages0 =>
    exists text,
      _get_recent_conversation_history 3 sample_conversation
      = (Ok text, sample_conversation) /\
      (length text <= 418 * Z.to_nat 3)%nat /\
      (messages0 = [] -> text = py "이전 대화 없음")
  end.
Proof.
  split; [lia|].
  apply (recent_history_is_bounded 3 sample_conversation). lia.
Defined.

Lemma alist_lookup_elem {V} (d : list (pystr * V)) k v :
  alist_lookup d k = Some v -> k ∈ d.*1.
Proof.
  induction d as [|[k' v'] d IH]; cbn; [discriminate|].
  destruct (decide (k' = k)) as [->|Hne]; [intros _; by left|].
  intros H. right. by apply IH.
Qed.

(** X18. The agent analyses put into a prompt are bounded: whatever the
    question type, [_extract_relevant_agent_analysis] quotes at most two
    agents, only agents that have a summary, each summary cut to 800
    characters; when every agent id in the summaries has at most [L]
    characters the text has at most [2 * (L + 811)] characters. *)
Theorem relevant_agent_analysis_is_bounded (question question_type : pystr)
    (summaries : list (pystr * pystr)) (L : nat) :
  Forall (fun k => (length k <= L)%nat) summaries.*1 ->
  (length (_extract_relevant_agent_analysis question question_type summaries)
   <= 2 * (L + 811))%nat /\
  exists parts,
    _extract_relevant_agent_analysis question question_type summaries
    = join [LF; LF] parts /\
    (length parts <= 2)%nat /\
    Forall (fun part =>
              exists agent_name analysis,
                alist_lookup summaries agent_name = Some analysis /\
                part = py "**" ++ agent_name ++ py "**: " ++ ellipsis 800 analysis)
           parts.
Proof.
  intros HL. unfold _extract_relevant_agent_analysis.
  set (targets := dict_get relevant_agents question_type summaries.*1).
  set (parts := take 2 (omap (quoted_analysis summaries) targets)).
  assert (Hparts : Forall (fun part =>
              exists agent_name analysis,
                alist_lookup summaries agent_name = Some analysis /\
                part = py "**" ++ agent_name ++ py "**: " ++ ellipsis 800 analysis)
           parts).
  { apply Forall_forall. intros part Hpart.
    apply elem_of_take in Hpart as (i & Hi & _).
    apply list_elem_of_lookup_2, list_elem_of_omap in Hi as (name & _ & Hq).
    unfold quoted_analysis in Hq.
    destruct (alist_lookup summaries name) as [analysis|] eqn:Hl; [|discriminate].
    injection Hq as <-. by exists name, analysis. }
  assert (Hlen : (length parts <= 2)%nat) by (unfold parts; rewrite length_take; lia).
  split; [|by exists parts].
  etransitivity.
  { apply (length_join_le [LF; LF] (L + 809)).
    eapply Forall_impl; [exact Hparts|].
    intros part (name & analysis & Hl & ->).
    rewrite !length_app.
    change (length (py "**")) with 2%nat. change (length (py "**: ")) with 4%nat.
    pose proof (length_ellipsis 800 analysis).
    apply alist_lookup_elem in Hl.
    pose proof (proj1 (Forall_forall _ _) HL name Hl) as Hname.
    cbv beta in Hname. lia. }
  change (length [LF; LF]) with 2%nat. clear -Hlen. nia.
Qed.

Lemma relevant_agent_analysis_is_bounded_witness :
  Forall (fun k => (length k <= 28)%nat)
         (default [] (agent_summaries sample_conversation)).*1 /\
  (length (_extract_relevant_agent_analysis
             (py "재무상태는?") (py "financial")
             (default [] (agent_summaries sample_conversation)))
   <= 2 * (28 + 811))%nat /\
  exists parts,
    _extract_relevant_agent_analysis
      (py "재무상태는?") (py "financial")
      (default [] (agent_summaries sample_conversation))
    = join [LF; LF] parts /\
    (length parts <= 2)%nat /\
    Forall (fun part =>
              exists agent_name analysis,
                alist_lookup (default [] (agent_summaries sample_conversation)) agent_name
                = Some analysis /\
                part = py "**" ++ agent_name ++ py "**: " ++ ellipsis 800 analysis)
           parts.
Proof.
  split; [apply (bool_decide_unpack _); by vm_compute|].
  apply (relevant_agent_analysis_is_bounded
           (py "재무상태는?") (py "financial")
           (default [] (agent_summaries sample_conversation)) 28).
  apply (bool_decide_unpack _). by vm_compute.
Defined.

Lemma read_key_Some {A} key (field : ConversationState -> option A) s v :
  field s = Some v -> read_key key field s = (Ok v, s).
Proof. unfold read_key. by intros ->. Qed.

Lemma read_key_None {A} key (field : ConversationState -> option A) s :
  field s = None -> read_key key field s = (Raise (AttributeError (py key)), s).
Proof. unfold read_key. by intros ->. Qed.

(** X19. The context put into a prompt is bounded: whatever the report, the
    summaries and the section extractor, [_get_relevant_context] returns at
    most 5003 characters (5000 and "..."), and the empty string when the
    report is empty and there are no summaries. It only fails when one of
    the two keys is absent, and it never changes the session. *)
Theorem relevant_context_is_bounded
    (_extract_relevant_report_sections : pystr -> pystr -> pystr)
    (question question_type : pystr) (s : ConversationState) :
  match _get_relevant_context _extract_relevant_report_sections
                              question question_type s with
  | (Ok text, s') =>
    s' = s /\ (length text <= 5003)%nat /\
    (final_report s = Some [] -> agent_summaries s = Some [] -> text = [])
  | (Raise e, s') =>
    s' = s /\ (final_report s = None \/ agent_summaries s = None)
  end.
Proof.
  unfold _get_relevant_context.
  destruct (final_report s) as [report|] eqn:Hrep.
  2: { unfold bind at 1. rewrite (read_key_None _ _ _ Hrep). split; [done|by left]. }
  unfold bind at 1. rewrite (read_key_Some _ _ _ _ Hrep).
  set (first_part :=
         if truthy report
         then (let* report0 := read_key "final_report" final_report in
               if truthy (_extract_relevant_report_sections question report0)
               then ret [py "## 종합 보고서 관련 내용:" ++ [LF] ++
                         _extract_relevant_report_sections question report0]
               else ret [])
         else ret []).
  assert (Hfirst : exists contexts, first_part s = (Ok contexts, s) /\
                                    (report = [] -> contexts = [])).
  { unfold first_part. destruct (truthy report) eqn:Ht.
    - unfold bind. rewrite (read_key_Some _ _ _ _ Hrep).
      destruct (truthy (_extract_relevant_report_sections question report));
        eexists; (split; [reflexivity|]); intros ->; discriminate.
    - eexists. split; [reflexivity|done]. }
  destruct Hfirst as (contexts & Hfirst & Hnil).
  unfold bind at 1. fold first_part. rewrite Hfirst.
  destruct (agent_summaries s) as [summaries|] eqn:Hsum.
  2: { unfold bind at 1. rewrite (read_key_None _ _ _ Hsum). split; [done|by right]. }
  unfold bind at 1. rewrite (read_key_Some _ _ _ _ Hsum).
  assert (Hsecond : exists contexts',
             (match summaries with
              | _ :: _ =>
                let* summaries0 := read_key "agent_summaries" agent_summaries in
                if truthy (_extract_relevant_agent_analysis question question_type summaries0)
                then ret (contexts ++
                          [py "## 전문가 분석 관련 내용:" ++ [LF] ++
                           _extract_relevant_agent_analysis question question_type
                                                            summaries0])
                else ret contexts
              | [] => ret contexts
              end) s = (Ok contexts', s) /\
             (summaries = [] -> contexts' = contexts)).
  { destruct summaries as [|x xs].
    - eexists. split; [reflexivity|done].
    - unfold bind. rewrite (read_key_Some _ _ _ _ Hsum).
      destruct (truthy (_extract_relevant_agent_analysis question question_type
                                                         (x :: xs)));
        eexists; (split; [reflexivity|]); discriminate. }
  destruct Hsecond as (contexts' & Hsecond & Hsame).
  unfold bind at 1. rewrite Hsecond. unfold ret.
  split; [done|]. split.
  - pose proof (length_ellipsis 5000 (join [LF; LF] contexts')) as Hlen.
    assert (Hsum3 : (5000 + 3 = 5003)%nat) by (by vm_compute).
    rewrite Hsum3 in Hlen. exact Hlen.
  - intros [= ->] [= ->]. rewrite Hsame, Hnil by done. reflexivity.
Qed.

Lemma contains_elem (sub s : pystr) c :
  contains sub s = true -> c ∈ sub -> c ∈ s.
Proof.
  assert (Hsw : forall p t, startswith t p = true -> c ∈ p -> c ∈ t).
  { induction p as [|a p IH]; intros t Hst Hc; [by apply elem_of_nil in Hc|].
    destruct t as [|b t]; [discriminate|]. cbn in Hst.
    apply andb_prop in Hst as [->%N.eqb_eq Hst].
    apply elem_of_cons in Hc as [->|Hc]; [by left|]. right. by apply IH. }
  induction s as [|b s IH]; cbn; intros Hc Hin.
  - rewrite orb_false_r in Hc. by apply (Hsw sub []).
  - apply orb_prop in Hc as [Hc|Hc]; [by apply (Hsw sub (b :: s))|].
    right. by apply IH.
Qed.

Lemma capital_keyword_never_occurs (keyword text : pystr) :
  existsb is_ascii_upper text = false ->
  existsb is_ascii_upper keyword = true ->
  contains keyword text = false.
Proof.
  intros Htext Hkw. destruct (contains keyword text) eqn:Hc; [|done].
  apply existsb_exists in Hkw as (c & Hin & Hup).
  apply list_elem_of_In in Hin.
  pose proof (contains_elem _ _ _ Hc Hin) as Hin'.
  apply list_elem_of_In in Hin'.
  assert (existsb is_ascii_upper text = true) by (apply existsb_exists; eauto).
  congruence.
Qed.

Lemma existsb_without_capitals (keywords : list pystr) (text : pystr) :
  existsb is_ascii_upper text = false ->
  existsb (fun keyword => contains keyword text)
          (List.filter (fun kw => negb (existsb is_ascii_upper kw)) keywords)
  = existsb (fun keyword => contains keyword text) keywords.
Proof.
  intros Htext. induction keywords as [|kw kws IH]; [done|].
  cbn [List.filter existsb].
  destruct (existsb is_ascii_upper kw) eqn:Hkw; cbn [negb existsb].
  - by rewrite (capital_keyword_never_occurs kw text Htext Hkw), IH.
  - by rewrite IH.
Qed.

Lemma first_category_without_capitals (patterns : list (pystr * list pystr))
    (text : pystr) :
  existsb is_ascii_upper text = false ->
  first_category (without_capitals patterns) text = first_category patterns text.
Proof.
  intros Htext. induction patterns as [|[category keywords] rest IH]; [done|].
  cbn [without_capitals fmap list_fmap first_category fst snd].
  rewrite (existsb_without_capitals keywords text Htext).
  destruct (existsb _ keywords); [done|]. exact IH.
Qed.

(** X20. Keywords with capital letters are dead: the question is lowered
    before the keywords are searched in it, so when the lowered question has
    no ASCII capital letter (as every result of [str.lower] does) the
    keywords "ROE", "ROA", "PER", "PBR", "RSI", "MACD" and "ESG" can never
    match, and [_classify_question_type] answers as if the table did not
    contain them. *)
Theorem capital_keywords_never_match (lower : pystr -> pystr) (question : pystr) :
  existsb is_ascii_upper (lower question) = false ->
  _classify_question_type lower question
  = first_category (without_capitals question_patterns) (lower question).
Proof.
  intros Hlow. unfold _classify_question_type.
  symmetry. by apply first_category_without_capitals.
Qed.

Lemma capital_keywords_never_match_witness :
  existsb is_ascii_upper (ascii_lower (py "ESG 등급과 PER은?")) = false /\
  _classify_question_type ascii_lower (py "ESG 등급과 PER은?")
  = first_category (without_capitals question_patterns)
                   (ascii_lower (py "ESG 등급과 PER은?")).
Proof.
  split; [by vm_compute|].
  apply (capital_keywords_never_match ascii_lower (py "ESG 등급과 PER은?")).
  by vm_compute.
Defined.

Lemma count_roles_le (messages0 : list ChatMessage) :
  (count_role (py "user") messages0 + count_role (py "assistant") messages0
   <= length messages0)%nat /\
  (Forall (fun msg => msg_role msg = py "user" \/ msg_role msg = py "assistant") messages0 ->
   (count_role (py "user") messages0 + count_role (py "assistant") messages0
    = length messages0)%nat).
Proof.
  unfold count_role.
  assert (Hne : py "user" <> py "assistant") by (by vm_compute).
  induction messages0 as [|m ms [IH1 IH2]]; [done|].
  rewrite !filter_cons.
  destruct (decide (msg_role m = py "user")) as [Hu|Hu];
    destruct (decide (msg_role m = py "assistant")) as [Ha|Ha];
    cbn [length]; try congruence.
  - split; [lia|]. intros [_ H]%Forall_cons. specialize (IH2 H). lia.
  - split; [lia|]. intros [_ H]%Forall_cons. specialize (IH2 H). lia.
  - split; [lia|]. intros [[?|?] _]%Forall_cons; congruence.
Qed.

(** X21. The numbers of [get_conversation_stats] add up: the questions of
    the user and the responses of the assistant together never exceed the
    total, and make up the total when every message has one of these two
    roles (the only roles the manager appends). With no message all numbers
    are zero and [conversation_started] is reported [False], whatever the
    flag says; with the key [chat_messages] absent the call raises
    [AttributeError]. The session is not changed. *)
Theorem conversation_stats_add_up (s : ConversationState) :
  match chat_messages s with
  | None =>
    get_conversation_stats s = (Raise (AttributeError (py "chat_messages")), s)
  | Some messages0 =>
    exists stats,
      get_conversation_stats s = (Ok stats, s) /\
      total_messages stats = length messages0 /\
      (user_questions stats + ai_responses stats <= total_messages stats)%nat /\
      (Forall (fun msg => msg_role msg = py "user" \/ msg_role msg = py "assistant")
              messages0 ->
       (user_questions stats + ai_responses stats = total_messages stats)%nat) /\
      (messages0 = [] -> stats_conversation_started stats = false)
  end.
Proof.
  unfold get_conversation_stats.
  destruct (chat_messages s) as [[|m ms]|] eqn:Hchat.
  - unfold bind. rewrite (read_key_Some _ _ _ _ Hchat).
    eexists. split; [reflexivity|]. cbn. repeat split; done.
  - unfold bind. rewrite !(read_key_Some _ _ _ _ Hchat).
    eexists. split; [reflexivity|].
    cbn [total_messages user_questions ai_responses stats_conversation_started].
    destruct (count_roles_le (m :: ms)) as [Hle Heq].
    split; [done|]. split; [exact Hle|]. split; [exact Heq|discriminate].
  - unfold bind. by rewrite (read_key_None _ _ _ Hchat).
Qed.

(* ===================================================================== *)
(** * Times *)
(* ===================================================================== *)

Section CollectTimes.
Context (pm2 : gmap pystr Progress) (st co : option bool) (ca : option pystr)
        (t0 : nat) (pl : list nat).
Context (order : list (Future * pystr)).
Hypothesis order_present : forall fut k, (fut, k) ∈ order -> is_Some (pm2 !! k).

End CollectTimes.




(** The two task executors of the engine do the same. *)
Lemma thread_safe_executor_is_the_same (self : Engine)
    (agent_name stock_code company_name : pystr) (ts : nat) :
  _execute_single_agent_thread_safe self agent_name stock_code company_name ts
  = _execute_single_agent_with_context self agent_name stock_code company_name ts.
Proof. reflexivity. Qed.
